(** * flash-banana-mcp: the HTTP image-edit pipeline

    A shallow embedding of the Express server ([index.js]) and of its two
    service clients ([services/geminiText.js], [services/geminiImage.js]).

    - JavaScript strings are Rocq [string]s (code units below 256).
    - The storage directory is a finite map from paths to file contents.
    - The handler is written in a small monad that threads the file store,
      collects the trace of effects (file operations, remote calls, console
      output, the response) and propagates thrown errors; [await e] is
      sequencing, as an async function resumes only once [e] has settled.
    - The handler is verified on the [req.file] and [req.body] the upload
      middleware hands it; of that middleware only the file filter is
      modelled, not the staging of the file.
    - Everything outside the repository (the remote services, the image
      library, the base64 decoder, the clock, the identifier generator, disk
      faults) is a field of the environment record [Env]. *)

From Stdlib Require Import ZArith String Ascii List Bool Lia DecimalString DecimalPos DecimalZ.
From stdpp Require Import base option list gmap strings.

Local Open Scope Z_scope.

(** ** JavaScript strings *)

Module JsString.

Definition is_empty (s : string) : bool :=
  match s with
  | EmptyString => true
  | String _ _ => false
  end.

Definition chars (s : string) : list ascii := list_ascii_of_string s.
Definition of_chars (l : list ascii) : string := string_of_list_ascii l.

(** ECMAScript WhiteSpace and LineTerminator code units below 256:
    TAB, LF, VT, FF, CR, SP and NBSP. *)
Definition is_whitespace (c : ascii) : bool :=
  let n := nat_of_ascii c in
  ((9 <=? n)%nat && (n <=? 13)%nat) || (n =? 32)%nat || (n =? 160)%nat.

Fixpoint trimStart_chars (l : list ascii) : list ascii :=
  match l with
  | c :: l' => if is_whitespace c then trimStart_chars l' else l
  | [] => []
  end.

(** [String.prototype.trim]. *)
Definition trim (s : string) : string :=
  of_chars (rev (trimStart_chars (rev (trimStart_chars (chars s))))).

Definition lower_char (c : ascii) : ascii :=
  let n := nat_of_ascii c in
  if ((65 <=? n)%nat && (n <=? 90)%nat) then ascii_of_nat (n + 32) else c.

Definition toLowerCase (s : string) : string :=
  of_chars (map lower_char (chars s)).

(** [s.includes(pat)]: [pat] occurs somewhere in [s]. *)
Fixpoint includes (pat s : string) : bool :=
  String.prefix pat s ||
  match s with
  | String _ s' => includes pat s'
  | EmptyString => false
  end.

Definition endsWith (suffix s : string) : bool :=
  String.prefix (String.rev suffix) (String.rev s).

Definition startsWith (pre s : string) : bool := String.prefix pre s.

(** [String(n)] for an integer [n]. *)
Definition of_Z (n : Z) : string := NilZero.string_of_int (Z.to_int n).

End JsString.

(** ** The upload filter (index.js, [upload.fileFilter]) *)

Record JsError := mkError { err_name : string; err_message : string }.

Definition new_Error (msg : string) : JsError := mkError "Error" msg.
Definition new_TypeError (msg : string) : JsError := mkError "TypeError" msg.

(** The file object multer hands to [fileFilter] and, once staged, to the
    handler as [req.file]. *)
Record File := mkFile {
  originalname : string;
  mimetype : string;
  path : string
}.

(** [/jpeg|jpg|png|webp/.test(s)]: an unanchored alternation. *)
Definition mimetype_regex_test (s : string) : bool :=
  JsString.includes "jpeg" s || JsString.includes "jpg" s ||
  JsString.includes "png" s || JsString.includes "webp" s.

(** [/\.(jpe?g|png|webp)$/i.test(s)]: anchored at the end, case-insensitive. *)
Definition extension_regex_test (s : string) : bool :=
  let l := JsString.toLowerCase s in
  JsString.endsWith ".jpg" l || JsString.endsWith ".jpeg" l ||
  JsString.endsWith ".png" l || JsString.endsWith ".webp" l.

Definition fileFilter_allowed (file : File) : bool :=
  mimetype_regex_test (mimetype file) || extension_regex_test (originalname file).

(** [cb(allowed ? null : new Error(...), allowed)]: the pair handed to the
    callback. *)
Definition fileFilter (file : File) : option JsError * bool :=
  let allowed := fileFilter_allowed file in
  (if allowed then None else Some (new_Error "Only images are allowed (jpg/png/webp)."),
   allowed).

(** ** JavaScript values, objects and [JSON.stringify] *)

(** The values this program reads out of objects or puts into its response
    bodies are primitive. *)
Inductive jsval :=
| JUndefined
| JNull
| JBool (b : bool)
| JNum (n : Z)
| JStr (s : string).

(** An object literal: its own properties in insertion order. *)
Definition jsobj := list (string * jsval).

(** [obj[key]]: the property's value, [undefined] when [obj] has no such
    property. *)
Fixpoint get_prop (obj : jsobj) (key : string) : jsval :=
  match obj with
  | [] => JUndefined
  | (k, v) :: obj' => if String.eqb k key then v else get_prop obj' key
  end.

Definition has_prop (obj : jsobj) (key : string) : bool :=
  existsb (fun kv => String.eqb (fst kv) key) obj.

Module JSON.

Definition backslash : ascii := "092"%char.
Definition dquote : ascii := "034"%char.

Definition hex_digit (n : nat) : ascii :=
  nth n (JsString.chars "0123456789abcdef") "0"%char.

Definition escape_char (c : ascii) : list ascii :=
  let n := nat_of_ascii c in
  if (n =? 8)%nat then [backslash; "b"%char]
  else if (n =? 9)%nat then [backslash; "t"%char]
  else if (n =? 10)%nat then [backslash; "n"%char]
  else if (n =? 12)%nat then [backslash; "f"%char]
  else if (n =? 13)%nat then [backslash; "r"%char]
  else if (n =? 34)%nat then [backslash; dquote]
  else if (n =? 92)%nat then [backslash; backslash]
  else if (n <? 32)%nat then
    [backslash; "u"%char; "0"%char; "0"%char;
     hex_digit (n / 16); hex_digit (n mod 16)]
  else [c].

(** QuoteJSONString. *)
Definition quote (s : string) : string :=
  JsString.of_chars
    (dquote :: flat_map escape_char (JsString.chars s) ++ [dquote]).

(** The serialization of a property value; [None] for [undefined], whose
    property is left out of the enclosing object. *)
Definition value (v : jsval) : option string :=
  match v with
  | JUndefined => None
  | JNull => Some "null"
  | JBool true => Some "true"
  | JBool false => Some "false"
  | JNum n => Some (JsString.of_Z n)
  | JStr s => Some (quote s)
  end.

Fixpoint members (obj : jsobj) : list string :=
  match obj with
  | [] => []
  | (k, v) :: obj' =>
      match value v with
      | Some sv => (quote k +:+ ":" +:+ sv) :: members obj'
      | None => members obj'
      end
  end.

(** [JSON.stringify(obj)] for an object literal. *)
Definition stringify (obj : jsobj) : string :=
  "{" +:+ String.concat "," (members obj) +:+ "}".

(** The keys present in the serialized text. *)
Fixpoint keys (obj : jsobj) : list string :=
  match obj with
  | [] => []
  | (k, v) :: obj' =>
      match value v with
      | Some _ => k :: keys obj'
      | None => keys obj'
      end
  end.

End JSON.

(** [String(err)] for an error object ([Error.prototype.toString]). *)
Definition String_of_error (e : JsError) : string :=
  if JsString.is_empty (err_message e) then err_name e
  else if JsString.is_empty (err_name e) then err_message e
  else err_name e +:+ ": " +:+ err_message e.

(** [err.message || String(err)]. *)
Definition message_or_String (e : JsError) : string :=
  if JsString.is_empty (err_message e) then String_of_error e else err_message e.

(** ** Paths *)

Module Path.

Definition slash : ascii := "/"%char.
Definition is_slash (c : ascii) : bool := Ascii.eqb c slash.

Fixpoint drop_slashes (l : list ascii) : list ascii :=
  match l with
  | c :: l' => if is_slash c then drop_slashes l' else l
  | [] => []
  end.

Fixpoint take_segment (l : list ascii) : list ascii :=
  match l with
  | c :: l' => if is_slash c then [] else c :: take_segment l'
  | [] => []
  end.

(** [path.basename(p)] (POSIX): the last segment, trailing slashes
    ignored. *)
Definition basename (p : string) : string :=
  JsString.of_chars
    (rev (take_segment (drop_slashes (rev (JsString.chars p))))).

(** [path.join(dir, name)] on the inputs the program gives it: a directory
    [dir] already in the normal form [path.join] produces ([storage] for
    the default [./storage]: no [.] or [..] segment, no doubled or
    trailing slash, not empty) and a file name [name] of one segment. On
    these the result is [dir], a slash and [name]; the normalisation
    [path.join] does on other inputs is not modelled. *)
Definition join (dir name : string) : string := dir +:+ "/" +:+ name.

Definition has_slash (s : string) : bool :=
  existsb is_slash (JsString.chars s).

End Path.

(** ** The environment and the effect monad *)

Abbreviation bytes := (list Byte.byte).
Abbreviation Files := (gmap string (list Byte.byte)).

(** How a promise settles. *)
Inductive Settled :=
| Resolve (resp : jsobj)
| Reject (err : JsError).

(** How a library call completes. *)
Inductive Try (A : Type) :=
| Returns (a : A)
| Throws (e : JsError).
Arguments Returns {A} a.
Arguments Throws {A} e.

Record Env := mkEnv {
  (** [process.env.STORAGE_DIR || './storage'], in the normal form
      [path.join] spells it in: [storage] for the default *)
  STORAGE_DIR : string;
  (** the reading of [Date.now()] while the request is handled *)
  Date_now : Z;
  (** the identifier [uuidv4()] draws *)
  uuidv4 : string;
  (** [ai.models.generateContent({model, contents})] *)
  generateContent : string -> string -> Settled;
  (** [ai.models.generateImage({model, contents, image})], the image given
      by the path its read stream is opened on *)
  generateImage : string -> jsval -> string -> Settled;
  (** [sharp(input).resize({width, withoutEnlargement})] encoded for a
      [.webp] target *)
  sharp_resize : Z -> bool -> bytes -> Try bytes;
  (** the decoder behind [Buffer.from(s, 'base64')], total on strings *)
  base64_decode : string -> bytes;
  (** the error a write to the given path raises, if the disk faults *)
  disk_fault : string -> option JsError
}.

Record Response := mkResponse { status : Z; body : jsobj }.

(** The bytes [res.json] puts on the wire. *)
Definition wire_body (r : Response) : string := JSON.stringify (body r).

Inductive Event :=
| EvUnlinkSync (p : string)
| EvSharpToFile (src dst : string)
| EvGenerateContent (model contents : string)
| EvGenerateImage (model : string) (contents : jsval) (image : string)
| EvWriteFileSync (p : string) (data : bytes)
| EvConsoleError (label : string) (err : JsError)
| EvJson (r : Response).

Inductive Completion (A : Type) :=
| Normal (a : A)
| Thrown (e : JsError).
Arguments Normal {A} a.
Arguments Thrown {A} e.

Definition Eff (A : Type) : Type := Files -> Completion A * Files * list Event.

Definition ret {A} (a : A) : Eff A := fun fs => (Normal a, fs, []).

Definition throw {A} (e : JsError) : Eff A := fun fs => (Thrown e, fs, []).

Definition bind {A B} (m : Eff A) (k : A -> Eff B) : Eff B :=
  fun fs =>
    match m fs with
    | (Normal a, fs1, t1) =>
        match k a fs1 with
        | (c, fs2, t2) => (c, fs2, t1 ++ t2)
        end
    | (Thrown e, fs1, t1) => (Thrown e, fs1, t1)
    end.

(** [try { m } catch (err) { h err }] *)
Definition try_catch {A} (m : Eff A) (h : JsError -> Eff A) : Eff A :=
  fun fs =>
    match m fs with
    | (Normal a, fs1, t1) => (Normal a, fs1, t1)
    | (Thrown e, fs1, t1) =>
        match h e fs1 with
        | (c, fs2, t2) => (c, fs2, t1 ++ t2)
        end
    end.

Definition emit (ev : Event) : Eff unit := fun fs => (Normal tt, fs, [ev]).

Declare Scope eff_scope.
Delimit Scope eff_scope with eff.
Notation "'let!' x ':=' m 'in' k" := (bind m (fun x => k))
  (at level 10, x name, m at level 100, k at level 200) : eff_scope.
Notation "'run!' m 'in' k" := (bind m (fun _ => k))
  (at level 10, m at level 100, k at level 200) : eff_scope.
Local Open Scope eff_scope.

(** *** Library calls *)

Definition console_error (label : string) (err : JsError) : Eff unit :=
  emit (EvConsoleError label err).

(** [fs.unlinkSync(p)] *)
Definition fs_unlinkSync (p : string) : Eff unit :=
  fun fs =>
    match fs !! p with
    | Some _ => (Normal tt, delete p fs, [EvUnlinkSync p])
    | None =>
        (Thrown (new_Error ("ENOENT: no such file or directory, unlink '" +:+ p +:+ "'")),
         fs, [EvUnlinkSync p])
    end.

(** [fs.writeFileSync(p, data)] *)
Definition fs_writeFileSync (env : Env) (p : string) (data : bytes) : Eff unit :=
  fun fs =>
    match disk_fault env p with
    | Some e => (Thrown e, fs, [EvWriteFileSync p data])
    | None => (Normal tt, <[p := data]> fs, [EvWriteFileSync p data])
    end.

(** [await sharp(src).resize({ width, withoutEnlargement }).toFile(dst)] *)
Definition sharp_resize_toFile (env : Env) (src : string) (width : Z)
    (withoutEnlargement : bool) (dst : string) : Eff unit :=
  fun fs =>
    match fs !! src with
    | None => (Thrown (new_Error ("Input file is missing: " +:+ src)), fs, [EvSharpToFile src dst])
    | Some content =>
        match sharp_resize env width withoutEnlargement content with
        | Throws e => (Thrown e, fs, [EvSharpToFile src dst])
        | Returns webp =>
            match disk_fault env dst with
            | Some e => (Thrown e, fs, [EvSharpToFile src dst])
            | None => (Normal tt, <[dst := webp]> fs, [EvSharpToFile src dst])
            end
        end
    end.

Definition received (v : jsval) : string :=
  match v with
  | JUndefined => "undefined"
  | JNull => "null"
  | JBool true => "type boolean (true)"
  | JBool false => "type boolean (false)"
  | JNum n => "type number (" +:+ JsString.of_Z n +:+ ")"
  | JStr s => "type string"
  end.

(** [Buffer.from(v, 'base64')]: decodes a string, throws a [TypeError] on
    any other primitive. *)
Definition Buffer_from_base64 (env : Env) (v : jsval) : Eff bytes :=
  match v with
  | JStr s => ret (base64_decode env s)
  | _ =>
      throw (new_TypeError
        ("The first argument must be of type string or an instance of Buffer, ArrayBuffer, or Array or an Array-like Object. Received "
         +:+ received v))
  end.

(** [res.status(code).json(obj)] *)
Definition res_json (code : Z) (obj : jsobj) : Eff Response :=
  run! emit (EvJson (mkResponse code obj)) in
  ret (mkResponse code obj).

(** *** The remote calls *)

Definition await_settled (s : Settled) : Eff jsobj :=
  match s with
  | Resolve resp => ret resp
  | Reject err => throw err
  end.

Definition ai_models_generateContent (env : Env) (model contents : string) : Eff jsobj :=
  run! emit (EvGenerateContent model contents) in
  await_settled (generateContent env model contents).

Definition ai_models_generateImage (env : Env) (model : string) (contents : jsval)
    (image : string) : Eff jsobj :=
  run! emit (EvGenerateImage model contents image) in
  await_settled (generateImage env model contents image).

(** ** The service clients *)

Definition text_failed : string := "Gemini Text parsing failed:".
Definition image_failed : string := "Gemini Image editing failed:".
Definition processing_error : string := "Processing error:".

(** services/geminiText.js *)
Definition parsePrompt (env : Env) (prompt : string) : Eff jsobj :=
  try_catch
    (let! resp := ai_models_generateContent env "gemini-2.5-flash" prompt in
     ret resp)
    (fun err =>
       run! console_error text_failed err in
       ret [("text", JStr prompt); ("error", JStr (err_message err))]).

(** services/geminiImage.js. The read stream [fs.createReadStream(imagePath)]
    is handed to the remote call as the path it is opened on. It is opened
    lazily; what becomes of a stream whose path is not on disk is not
    modelled: the handler calls [editImage] on the upload the image library
    has just read. *)
Definition editImage (env : Env) (imagePath : string) (instructions : jsval) : Eff jsobj :=
  try_catch
    (let! resp := ai_models_generateImage env "gemini-2.5-flash-image" instructions imagePath in
     ret resp)
    (fun err =>
       run! console_error image_failed err in
       ret [("imageBase64", JNull); ("error", JStr (err_message err))]).

(** ** The request pipeline (index.js, [POST /process]) *)

(** What reaches the handler once the upload middleware has run, for a
    request in the documented form: the multipart text field [prompt],
    when the form carries one, and the staged file, when the form carries
    an accepted [image] part. Requests whose [prompt] is not text are
    [Incoming] below. *)
Record Request := mkRequest {
  body_prompt : option string;
  req_file : option File
}.

(** [!file] for the optional [req.file]. *)
Definition is_undefined {A} (o : option A) : bool :=
  match o with
  | Some _ => false
  | None => true
  end.

(** [req.body.prompt || ''] *)
Definition prompt_or_empty (req : Request) : string :=
  match body_prompt req with
  | Some s => s
  | None => EmptyString
  end.

Definition previewName (file : File) : string :=
  "preview-" +:+ Path.basename (path file) +:+ ".webp".

Definition previewPath (env : Env) (file : File) : string :=
  Path.join (STORAGE_DIR env) (previewName file).

Definition outFilename (env : Env) : string :=
  "out-" +:+ JsString.of_Z (Date_now env) +:+ "-" +:+ uuidv4 env +:+ ".png".

Definition outPath (env : Env) : string :=
  Path.join (STORAGE_DIR env) (outFilename env).

Definition success_body (env : Env) (file : File) (parsed : jsobj) : jsobj :=
  [("success", JBool true);
   ("parsed", get_prop parsed "text");
   ("imageUrl", JStr ("/storage/" +:+ outFilename env));
   ("previewUrl", JStr ("/storage/" +:+ Path.basename (previewPath env file)))].

(** The statements of the [try] block. *)
Definition process_try (env : Env) (req : Request) : Eff Response :=
  let file := req_file req in
  let prompt := JsString.trim (prompt_or_empty req) in
  if JsString.is_empty prompt || is_undefined file then
    run! match file with
         | Some f => fs_unlinkSync (path f)
         | None => ret tt
         end in
    res_json 400 [("error", JStr "Prompt and image are required.")]
  else
    match file with
    | None => throw (new_TypeError "Cannot read properties of undefined (reading 'path')")
    | Some f =>
        run! sharp_resize_toFile env (path f) 1024 true (previewPath env f) in
        let! parsed := parsePrompt env prompt in
        let! out := editImage env (path f) (get_prop parsed "text") in
        let! buffer := Buffer_from_base64 env (get_prop out "imageBase64") in
        run! fs_writeFileSync env (outPath env) buffer in
        res_json 200 (success_body env f parsed)
    end.

(** The [catch (err)] block. *)
Definition process_catch (err : JsError) : Eff Response :=
  run! console_error processing_error err in
  res_json 500 [("error", JStr "Server error"); ("message", JStr (message_or_String err))].

Definition process_handler (env : Env) (req : Request) : Eff Response :=
  try_catch (process_try env req) process_catch.

(** *** Requests whose prompt is not text *)

(** [req.body.prompt] as the body parsers leave it: a primitive (a string
    from a multipart text field, any JSON primitive from [express.json()],
    [undefined] when there is none), an array (a multipart field sent more
    than once, a JSON array) or an object. *)
Inductive BodyValue :=
| BodyPrimitive (v : jsval)
| BodyArray (items : list jsval)
| BodyObject (o : jsobj).

Record Incoming := mkIncoming {
  incoming_prompt : BodyValue;
  incoming_file : option File
}.

(** ToBoolean: [undefined], [null], [false], [0] and the empty string are
    falsy, every array and object is truthy. *)
Definition truthy (b : BodyValue) : bool :=
  match b with
  | BodyPrimitive JUndefined => false
  | BodyPrimitive JNull => false
  | BodyPrimitive (JBool x) => x
  | BodyPrimitive (JNum n) => negb (n =? 0)
  | BodyPrimitive (JStr s) => negb (JsString.is_empty s)
  | BodyArray _ => true
  | BodyObject _ => true
  end.

(** The [TypeError] of calling [.trim()] on a value that has no such
    method. *)
Definition trim_type_error : JsError :=
  new_TypeError
    ("(req.body.prompt || " +:+ JsString.of_chars [JSON.dquote; JSON.dquote]
     +:+ ").trim is not a function").

(** [(req.body.prompt || '').trim()]: numbers, booleans, arrays and parsed
    objects have no [trim] method. *)
Definition prompt_trimmed (b : BodyValue) : Eff string :=
  if truthy b then
    match b with
    | BodyPrimitive (JStr s) => ret (JsString.trim s)
    | _ => throw trim_type_error
    end
  else ret (JsString.trim EmptyString).

(** The statements of the [try] block, for any [req.body.prompt]. *)
Definition process_try_incoming (env : Env) (req : Incoming) : Eff Response :=
  let file := incoming_file req in
  let! prompt := prompt_trimmed (incoming_prompt req) in
  if JsString.is_empty prompt || is_undefined file then
    run! match file with
         | Some f => fs_unlinkSync (path f)
         | None => ret tt
         end in
    res_json 400 [("error", JStr "Prompt and image are required.")]
  else
    match file with
    | None => throw (new_TypeError "Cannot read properties of undefined (reading 'path')")
    | Some f =>
        run! sharp_resize_toFile env (path f) 1024 true (previewPath env f) in
        let! parsed := parsePrompt env prompt in
        let! out := editImage env (path f) (get_prop parsed "text") in
        let! buffer := Buffer_from_base64 env (get_prop out "imageBase64") in
        run! fs_writeFileSync env (outPath env) buffer in
        res_json 200 (success_body env f parsed)
    end.

(** The route handler on any request that reaches it. *)
Definition process_request (env : Env) (req : Incoming) : Eff Response :=
  try_catch (process_try_incoming env req) process_catch.

(** A request in the documented form, as an [Incoming]. *)
Definition incoming_of (req : Request) : Incoming :=
  mkIncoming
    (match body_prompt req with
     | Some s => BodyPrimitive (JStr s)
     | None => BodyPrimitive JUndefined
     end)
    (req_file req).


(** ** [GET /health] behind the rate limiter *)

(** The options of [rateLimit({ windowMs: 60 * 1000, max: 60 })]. *)
Definition windowMs : Z := 60 * 1000.
Definition max_requests : nat := 60.

(** Per client: the requests counted in the open window, and when it closes. *)
Abbreviation Limiter := (gmap string (nat * Z)).

(** Modelled from the spec: the limiter middleware, which is the
    express-rate-limit library's and not part of the sources. Per client, a
    fixed window of [windowMs] opens at the first request and lets
    [max_requests] requests through; the ones beyond are answered by the
    limiter. *)
Definition rateLimit (now : Z) (client : string) (lim : Limiter) : bool * Limiter :=
  let '(count, resetTime) :=
    match lim !! client with
    | Some (count, resetTime) =>
        if resetTime <=? now then (O, now + windowMs) else (count, resetTime)
    | None => (O, now + windowMs)
    end in
  ((S count <=? max_requests)%nat, <[client := (S count, resetTime)]> lim).

Inductive HttpResult :=
| Served (r : Response)
| TooManyRequests.

(** [app.get('/health', (req, res) => res.json({ status: 'ok', ts: Date.now() }))] *)
Definition health_handler (env : Env) : Eff Response :=
  res_json 200 [("status", JStr "ok"); ("ts", JNum (Date_now env))].

(** One [GET /health] request from [client], through the middleware chain;
    an error thrown by a handler would reach Express's default error
    handler. *)
Definition GET_health (env : Env) (client : string) (lim : Limiter) : HttpResult * Limiter :=
  match rateLimit (Date_now env) client lim with
  | (true, lim') =>
      match health_handler env ∅ with
      | (Normal r, _, _) => (Served r, lim')
      | (Thrown _, _, _) => (Served (mkResponse 500 []), lim')
      end
  | (false, lim') => (TooManyRequests, lim')
  end.

(** [n] requests in a row from one client at one clock reading. *)
Fixpoint GET_health_repeat (n : nat) (env : Env) (client : string) (lim : Limiter)
  : list HttpResult * Limiter :=
  match n with
  | O => ([], lim)
  | S n' =>
      let '(r, lim1) := GET_health env client lim in
      let '(rs, lim2) := GET_health_repeat n' env client lim1 in
      (r :: rs, lim2)
  end.

Definition ts_of (r : HttpResult) : jsval :=
  match r with
  | Served resp => get_prop (body resp) "ts"
  | TooManyRequests => JUndefined
  end.

(** ** The upload filter as the specification words it *)

Definition image_formats : list string := ["jpg"; "jpeg"; "png"; "webp"].

(** The MIME type names one of the formats: [image/<format>]. *)
Definition mime_denotes_format (m : string) : bool :=
  existsb (fun fmt => String.eqb (JsString.toLowerCase m) ("image/" +:+ fmt)) image_formats.

(** The filename ends in [.<format>]. *)
Definition extension_denotes_format (name : string) : bool :=
  existsb (fun fmt => JsString.endsWith ("." +:+ fmt) (JsString.toLowerCase name)) image_formats.

Definition spec_fileFilter_allowed (file : File) : bool :=
  mime_denotes_format (mimetype file) || extension_denotes_format (originalname file).

(** What multer does with the filter's verdict: an error aborts the request
    before the route handler, otherwise the handler runs. *)
Inductive Next :=
| NextHandler
| NextError (e : JsError).

Definition upload_filter_step (file : File) : Next :=
  match fileFilter file with
  | (Some e, _) => NextError e
  | (None, _) => NextHandler
  end.

(** ** Sample data *)

Module Sample.

Definition b64_value (c : ascii) : option N :=
  let n := N_of_ascii c in
  if ((65 <=? n) && (n <=? 90))%N then Some (n - 65)%N
  else if ((97 <=? n) && (n <=? 122))%N then Some (n - 71)%N
  else if ((48 <=? n) && (n <=? 57))%N then Some (n + 4)%N
  else if ((n =? 43) || (n =? 45))%N then Some 62%N
  else if ((n =? 47) || (n =? 95))%N then Some 63%N
  else None.

(** A base64 decoder: characters outside the alphabet are skipped,
    decoding stops at the first padding character. *)
Fixpoint b64_sextets (l : list ascii) : list N :=
  match l with
  | [] => []
  | c :: l' =>
      if Ascii.eqb c "="%char then []
      else match b64_value c with
           | Some v => v :: b64_sextets l'
           | None => b64_sextets l'
           end
  end.

Definition byte_of_N (n : N) : Byte.byte :=
  match Byte.of_N (n mod 256) with
  | Some b => b
  | None => Byte.x00
  end.

Fixpoint b64_bytes (fuel : nat) (l : list N) : bytes :=
  match fuel, l with
  | S fuel', a :: b :: c :: d :: l' =>
      byte_of_N (a * 4 + b / 16) :: byte_of_N (b * 16 + c / 4) :: byte_of_N (c * 64 + d)
      :: b64_bytes fuel' l'
  | _, [a; b; c] => [byte_of_N (a * 4 + b / 16); byte_of_N (b * 16 + c / 4)]
  | _, [a; b] => [byte_of_N (a * 4 + b / 16)]
  | _, _ => []
  end.

Definition decode (s : string) : bytes :=
  let l := b64_sextets (JsString.chars s) in b64_bytes (length l) l.

Definition file : File := mkFile "cat.png" "image/png" "storage/17-ab.png".

Definition fs : Files := {[ "storage/17-ab.png" := [Byte.x89; Byte.x50; Byte.x4e; Byte.x47] ]}.

Definition request : Request := mkRequest (Some "  make it blue ") (Some file).

(** Both services answer, the image library re-encodes, the disk works. *)
Definition env : Env :=
  mkEnv "storage" 1700000000000 "6f1c"
    (fun _ contents => Resolve [("text", JStr ("Recolour: " +:+ contents))])
    (fun _ _ _ => Resolve [("imageBase64", JStr "aGk=")])
    (fun _ _ content => Returns content)
    decode
    (fun _ => None).

Definition quota : JsError := mkError "ApiError" "quota exceeded".

(** The text service is down. *)
Definition env_text_down : Env :=
  mkEnv "storage" 1700000000000 "6f1c"
    (fun _ _ => Reject quota)
    (fun _ _ _ => Resolve [("imageBase64", JStr "aGk=")])
    (fun _ _ content => Returns content)
    decode
    (fun _ => None).


(** The text service answers without a [text] property. *)
Definition env_no_text : Env :=
  mkEnv "storage" 1700000000000 "6f1c"
    (fun _ _ => Resolve [("candidates", JNull)])
    (fun _ _ _ => Resolve [("imageBase64", JStr "aGk=")])
    (fun _ _ content => Returns content)
    decode
    (fun _ => None).

(** The disk refuses the output file. *)
Definition env_disk_full : Env :=
  mkEnv "storage" 1700000000000 "6f1c"
    (fun _ contents => Resolve [("text", JStr ("Recolour: " +:+ contents))])
    (fun _ _ _ => Resolve [("imageBase64", JStr "aGk=")])
    (fun _ _ content => Returns content)
    decode
    (fun p => if JsString.includes "/out-" p
              then Some (mkError "Error" "ENOSPC: no space left on device, write")
              else None).

Definition webpack_bundle : File :=
  mkFile "bundle.js" "application/x-webpack-bundle" EmptyString.

End Sample.

(** ** Vocabulary of the statements *)

(** The error [Buffer.from(null, 'base64')] throws. *)
Definition null_payload_error : JsError :=
  new_TypeError
    "The first argument must be of type string or an instance of Buffer, ArrayBuffer, or Array or an Array-like Object. Received null".

Definition server_error (err : JsError) : Response :=
  mkResponse 500 [("error", JStr "Server error"); ("message", JStr (message_or_String err))].


(** The steps of the pipeline, in the order the specification lists them. *)
Inductive Stage := Validate | Preview | Interpret | Edit | Persist | Respond.

(** The step an effect belongs to; console output belongs to none. *)
Definition stage_of (ev : Event) : option Stage :=
  match ev with
  | EvUnlinkSync _ => Some Validate
  | EvSharpToFile _ _ => Some Preview
  | EvGenerateContent _ _ => Some Interpret
  | EvGenerateImage _ _ _ => Some Edit
  | EvWriteFileSync _ _ => Some Persist
  | EvJson _ => Some Respond
  | EvConsoleError _ _ => None
  end.

Definition stages (tr : list Event) : list Stage := omap stage_of tr.

Definition working_steps : list Stage := [Preview; Interpret; Edit; Persist].

(** The environment in which the text service answers with the prompt it
    was given. *)
Definition with_text_echo (env : Env) : Env :=
  mkEnv (STORAGE_DIR env) (Date_now env) (uuidv4 env)
    (fun _ contents => Resolve [("text", JStr contents)])
    (generateImage env) (sharp_resize env) (base64_decode env) (disk_fault env).

(** The environment at a later clock reading. *)
Definition at_time (env : Env) (now : Z) : Env :=
  mkEnv (STORAGE_DIR env) now (uuidv4 env) (generateContent env)
    (generateImage env) (sharp_resize env) (base64_decode env) (disk_fault env).

Definition validation_error : Response :=
  mkResponse 400 [("error", JStr "Prompt and image are required.")].

(** The [ts] of the second response is strictly above the first's. *)
Definition ts_increases (r1 r2 : HttpResult) : Prop :=
  match ts_of r1, ts_of r2 with
  | JNum a, JNum b => a < b
  | _, _ => False
  end.

Definition health_ok (now : Z) : HttpResult :=
  Served (mkResponse 200 [("status", JStr "ok"); ("ts", JNum now)]).





(** Each step of a run works on what the step before it produced: the
    preview is made of a validated request, the text call is issued with the
    preview on disk, the image call carries the [text] of the object
    [parsePrompt] returned, and the output write carries the decoded payload
    of the object [editImage] returned. *)
Definition each_step_after_previous (env : Env) (req : Request) (fs' : Files)
    (tr : list Event) : Prop :=
  (In Preview (stages tr) ->
     JsString.is_empty (JsString.trim (prompt_or_empty req)) = false
     /\ exists f, req_file req = Some f)
  /\ (In Interpret (stages tr) ->
        exists f webp, req_file req = Some f /\ fs' !! previewPath env f = Some webp)
  /\ (forall m contents image, In (EvGenerateImage m contents image) tr ->
        exists parsed,
          (forall fs0,
             (parsePrompt env (JsString.trim (prompt_or_empty req)) fs0).1.1 = Normal parsed)
          /\ contents = get_prop parsed "text")
  /\ (forall p data, In (EvWriteFileSync p data) tr ->
        exists f contents out payload,
          req_file req = Some f
          /\ In (EvGenerateImage "gemini-2.5-flash-image" contents (path f)) tr
          /\ (forall fs0, (editImage env (path f) contents fs0).1.1 = Normal out)
          /\ get_prop out "imageBase64" = JStr payload
          /\ p = outPath env
          /\ data = base64_decode env payload).

(** ** Configuration (index.js, lines 15 to 17 and 32) *)

(** The decimal digits [s] starts with, as a [Decimal.uint]; [Nil] when it
    starts with none. *)
Fixpoint digits_prefix (s : string) : Decimal.uint :=
  match s with
  | EmptyString => Decimal.Nil
  | String c s' =>
      match c with
      | "0" => Decimal.D0 (digits_prefix s')
      | "1" => Decimal.D1 (digits_prefix s')
      | "2" => Decimal.D2 (digits_prefix s')
      | "3" => Decimal.D3 (digits_prefix s')
      | "4" => Decimal.D4 (digits_prefix s')
      | "5" => Decimal.D5 (digits_prefix s')
      | "6" => Decimal.D6 (digits_prefix s')
      | "7" => Decimal.D7 (digits_prefix s')
      | "8" => Decimal.D8 (digits_prefix s')
      | "9" => Decimal.D9 (digits_prefix s')
      | _ => Decimal.Nil
      end%char
  end.

(** What [parseInt] and the arithmetic on its result give: [NaN], an
    integer below 2^53 in magnitude, where a Number holds it exactly, or a
    Number at or above 2^53, which is rounded and not modelled further. *)
Inductive JsInt :=
| NaN
| Int (n : Z)
| Inexact.

Definition to_JsInt (n : Z) : JsInt :=
  if Z.abs n <? 2 ^ 53 then Int n else Inexact.

(** [parseInt(s, 10)]: leading white space is skipped, one sign is read,
    then the longest run of decimal digits; without a digit the result is
    [NaN]. *)
Definition parseInt10 (s : string) : JsInt :=
  match JsString.trimStart_chars (JsString.chars s) with
  | [] => NaN
  | c :: rest =>
      let '(sign, digits) :=
        if Ascii.eqb c "-"%char then (-1, JsString.of_chars rest)
        else if Ascii.eqb c "+"%char then (1, JsString.of_chars rest)
        else (1, JsString.of_chars (c :: rest)) in
      match digits_prefix digits with
      | Decimal.Nil => NaN
      | d => to_JsInt (sign * Z.of_uint d)
      end
  end.

(** [v || dflt] for an environment variable, unset or a string. *)
Definition env_or (v : option string) (dflt : string) : string :=
  match v with
  | Some s => if JsString.is_empty s then dflt else s
  | None => dflt
  end.

(** [const MAX_FILE_MB = parseInt(process.env.MAX_FILE_MB || '8', 10)] *)
Definition MAX_FILE_MB (env_MAX_FILE_MB : option string) : JsInt :=
  parseInt10 (env_or env_MAX_FILE_MB "8").

(** [limits: { fileSize: MAX_FILE_MB * 1024 * 1024 }] *)
Definition limits_fileSize (env_MAX_FILE_MB : option string) : JsInt :=
  match MAX_FILE_MB env_MAX_FILE_MB with
  | Int mb => to_JsInt (mb * 1024 * 1024)
  | NaN => NaN
  | Inexact => Inexact
  end.

(** ** Further sample data *)


(** A JSON body [{"prompt": 5}]: no image part, a number for a prompt. *)
Definition sample_json_request : Incoming :=
  mkIncoming (BodyPrimitive (JNum 5)) None.

(** ** Vocabulary of the further statements *)

Definition head_is_whitespace (s : string) : bool :=
  match JsString.chars s with
  | c :: _ => JsString.is_whitespace c
  | [] => false
  end.

Definition last_is_whitespace (s : string) : bool :=
  match rev (JsString.chars s) with
  | c :: _ => JsString.is_whitespace c
  | [] => false
  end.

Definition all_whitespace (s : string) : bool :=
  forallb JsString.is_whitespace (JsString.chars s).

Definition is_lowercase_letter (c : ascii) : bool :=
  let n := nat_of_ascii c in ((97 <=? n)%nat && (n <=? 122)%nat).

Definition is_digit (c : ascii) : bool :=
  let n := nat_of_ascii c in ((48 <=? n)%nat && (n <=? 57)%nat).

(** The tokens of the MIME pattern and the suffixes of the name pattern. *)
Definition mime_tokens : list string := ["jpeg"; "jpg"; "png"; "webp"].
Definition name_suffixes : list string := [".jpg"; ".jpeg"; ".png"; ".webp"].

(** The error [Buffer.from(v, 'base64')] throws on a primitive [v] that is
    not a string. *)
Definition payload_type_error (v : jsval) : JsError :=
  new_TypeError
    ("The first argument must be of type string or an instance of Buffer, ArrayBuffer, or Array or an Array-like Object. Received "
     +:+ received v).

(** The error [fs.unlinkSync(p)] throws when [p] is not there. *)
Definition unlink_enoent (p : string) : JsError :=
  new_Error ("ENOENT: no such file or directory, unlink '" +:+ p +:+ "'").

Definition is_json (ev : Event) : bool :=
  match ev with
  | EvJson _ => true
  | _ => false
  end.


(** * Properties *)

(** ** Sample evaluations *)

Example fileFilter_png :
  fileFilter (mkFile "cat.PNG" "application/octet-stream" "storage/1-a.PNG") = (None, true).
Proof. reflexivity. Qed.

Example fileFilter_pdf :
  fst (fileFilter (mkFile "cv.pdf" "application/pdf" "storage/1-a.pdf")) <> None
  /\ snd (fileFilter (mkFile "cv.pdf" "application/pdf" "storage/1-a.pdf")) = false.
Proof. split; [discriminate | reflexivity]. Qed.

Example basename_staged : Path.basename "storage/17-ab.png" = "17-ab.png".
Proof. reflexivity. Qed.

Example basename_trailing : Path.basename "a/b//" = "b".
Proof. reflexivity. Qed.

Example stringify_drops_undefined :
  JSON.stringify [("success", JBool true); ("parsed", JUndefined); ("ts", JNum 42)]
  = JsString.of_chars
      (JsString.chars "{" ++ [JSON.dquote] ++ JsString.chars "success" ++ [JSON.dquote]
       ++ JsString.chars ":true," ++ [JSON.dquote] ++ JsString.chars "ts" ++ [JSON.dquote]
       ++ JsString.chars ":42}").
Proof. reflexivity. Qed.

Example sample_decode : Sample.decode "aGk=" = [Byte.x68; Byte.x69].
Proof. reflexivity. Qed.

(** ** Strings and paths *)

Section StringFacts.

Lemma chars_app (a b : string) :
  JsString.chars (a +:+ b) = JsString.chars a ++ JsString.chars b.
Proof.
  unfold JsString.chars. induction a as [|c a IH]; simpl; [reflexivity|].
  now rewrite IH.
Qed.

Lemma of_chars_chars (s : string) : JsString.of_chars (JsString.chars s) = s.
Proof. apply string_of_list_ascii_of_string. Qed.

Lemma chars_of_chars (l : list ascii) : JsString.chars (JsString.of_chars l) = l.
Proof. apply list_ascii_of_string_of_list_ascii. Qed.

Lemma append_inj_l (s a b : string) : s +:+ a = s +:+ b -> a = b.
Proof.
  induction s as [|c s IH]; simpl; intros H; [assumption|].
  injection H as H. now apply IH.
Qed.

Lemma existsb_slash_rev (l : list ascii) :
  existsb Path.is_slash (rev l) = existsb Path.is_slash l.
Proof.
  induction l as [|c l IH]; simpl; [reflexivity|].
  rewrite existsb_app, IH. simpl. rewrite orb_false_r. apply orb_comm.
Qed.

Lemma take_segment_no_slash (l : list ascii) :
  existsb Path.is_slash (Path.take_segment l) = false.
Proof.
  induction l as [|c l IH]; simpl; [reflexivity|].
  destruct (Path.is_slash c) eqn:E; simpl; [reflexivity|].
  now rewrite E.
Qed.

Lemma take_segment_app (l r : list ascii) :
  existsb Path.is_slash l = false ->
  Path.take_segment (l ++ Path.slash :: r) = l.
Proof.
  induction l as [|c l IH]; simpl; intros H.
  - reflexivity.
  - apply orb_false_iff in H as [Hc Hl]. rewrite Hc. f_equal. now apply IH.
Qed.

Lemma drop_slashes_app (l r : list ascii) :
  l <> [] -> existsb Path.is_slash l = false ->
  Path.drop_slashes (l ++ r) = l ++ r.
Proof.
  destruct l as [|c l]; [congruence|]. simpl. intros _ H.
  apply orb_false_iff in H as [Hc _]. now rewrite Hc.
Qed.

(** The basename of a path never contains a slash. *)
Lemma basename_no_slash (p : string) : Path.has_slash (Path.basename p) = false.
Proof.
  unfold Path.has_slash, Path.basename. rewrite chars_of_chars, existsb_slash_rev.
  apply take_segment_no_slash.
Qed.

(** [path.basename(path.join(dir, name)) = name] for a plain file name. *)
Lemma basename_join (dir name : string) :
  name <> EmptyString -> Path.has_slash name = false ->
  Path.basename (Path.join dir name) = name.
Proof.
  intros Hne Hns. unfold Path.basename, Path.join, Path.has_slash in *.
  rewrite !chars_app. change (JsString.chars "/") with [Path.slash].
  rewrite rev_app_distr. simpl.
  rewrite <- app_assoc. simpl.
  assert (Hrev : rev (JsString.chars name) <> []).
  { intros E. apply (f_equal (@rev ascii)) in E. rewrite rev_involutive in E. simpl in E.
    apply Hne. rewrite <- (of_chars_chars name), E. reflexivity. }
  rewrite drop_slashes_app; [|assumption|now rewrite existsb_slash_rev].
  rewrite take_segment_app by now rewrite existsb_slash_rev.
  now rewrite rev_involutive, of_chars_chars.
Qed.

Lemma has_slash_app (a b : string) :
  Path.has_slash (a +:+ b) = Path.has_slash a || Path.has_slash b.
Proof. unfold Path.has_slash. now rewrite chars_app, existsb_app. Qed.

End StringFacts.

Lemma previewName_plain (f : File) :
  previewName f <> EmptyString /\ Path.has_slash (previewName f) = false.
Proof.
  unfold previewName. split; [discriminate|].
  rewrite !has_slash_app, basename_no_slash. reflexivity.
Qed.

(** The preview's URL leads back to the preview file. *)
Lemma basename_previewPath (env : Env) (f : File) :
  Path.basename (previewPath env f) = previewName f.
Proof. unfold previewPath. apply basename_join; apply previewName_plain. Qed.

Lemma previewPath_neq_outPath (env : Env) (f : File) : previewPath env f <> outPath env.
Proof.
  unfold previewPath, outPath, Path.join, previewName, outFilename. intros E.
  apply append_inj_l in E. discriminate E.
Qed.

(** ** The upload filter *)

(** Whatever the specification's filter lets through, the code lets
    through. *)
Lemma endsWith_dot_formats (l : string) :
  existsb (fun fmt => JsString.endsWith ("." +:+ fmt) l) image_formats
  = (JsString.endsWith ".jpg" l || JsString.endsWith ".jpeg" l
     || JsString.endsWith ".png" l || JsString.endsWith ".webp" l).
Proof. simpl. now rewrite orb_false_r, !orb_assoc. Qed.

Lemma includes_suffix (pat pre : string) :
  JsString.includes pat (pre +:+ pat) = true.
Proof.
  induction pre as [|c pre IH].
  - change (EmptyString +:+ pat) with pat.
    assert (P : String.prefix pat pat = true).
    { induction pat as [|a pat IHp]; simpl; [reflexivity|].
      destruct (ascii_dec a a); [assumption | congruence]. }
    destruct pat; simpl; [reflexivity|]. simpl in P. now rewrite P.
  - change (String c pre +:+ pat) with (String c (pre +:+ pat)).
    simpl. rewrite IH. apply orb_true_r.
Qed.

Lemma spec_filter_refined (file : File) :
  mimetype file = JsString.toLowerCase (mimetype file) ->
  spec_fileFilter_allowed file = true -> fileFilter_allowed file = true.
Proof.
  unfold spec_fileFilter_allowed, fileFilter_allowed, extension_denotes_format,
    extension_regex_test.
  intros Hlow H. rewrite endsWith_dot_formats in H.
  apply orb_true_iff in H as [H|H]; [|rewrite H; apply orb_true_r].
  apply orb_true_iff. left.
  unfold mime_denotes_format in H. rewrite <- Hlow in H. simpl in H.
  unfold mimetype_regex_test.
  repeat match type of H with
         | (_ || _) = true => apply orb_true_iff in H as [H|H]
         end; try discriminate H; apply String.eqb_eq in H; rewrite H.
  - change "image/jpg" with ("image/" +:+ "jpg"). rewrite includes_suffix.
    now rewrite orb_true_r.
  - change "image/jpeg" with ("image/" +:+ "jpeg"). now rewrite includes_suffix.
  - change "image/png" with ("image/" +:+ "png"). rewrite includes_suffix.
    now rewrite !orb_true_r.
  - change "image/webp" with ("image/" +:+ "webp"). rewrite includes_suffix.
    now rewrite !orb_true_r.
Qed.

(** A file the filter turns down never reaches the route handler. *)
Lemma rejected_upload_skips_handler (file : File) :
  fileFilter_allowed file = false ->
  upload_filter_step file = NextError (new_Error "Only images are allowed (jpg/png/webp).").
Proof. intros H. unfold upload_filter_step, fileFilter. now rewrite H. Qed.

(** C6 (defect in the code): a file whose MIME type and extension both lie
    outside jpg, jpeg, png and webp is let through by [fileFilter] and
    reaches the route handler: the MIME pattern is not anchored, so the
    type [application/x-webpack-bundle] matches on its substring [webp]. *)
Theorem fileFilter_accepts_webpack_bundle :
  spec_fileFilter_allowed Sample.webpack_bundle = false
  /\ extension_regex_test (originalname Sample.webpack_bundle) = false
  /\ fileFilter Sample.webpack_bundle = (None, true)
  /\ upload_filter_step Sample.webpack_bundle = NextHandler.
Proof. repeat split. Qed.

(** ** The request pipeline *)

Ltac eff_unfold :=
  unfold process_handler, process_try, process_catch, parsePrompt, editImage,
    ai_models_generateContent, ai_models_generateImage, await_settled,
    sharp_resize_toFile, fs_writeFileSync, fs_unlinkSync, Buffer_from_base64,
    res_json, console_error, emit, try_catch, bind, ret, throw.

Tactic Notation "eff_unfold" "in" hyp(H) :=
  unfold process_handler, process_try, process_catch, parsePrompt, editImage,
    ai_models_generateContent, ai_models_generateImage, await_settled,
    sharp_resize_toFile, fs_writeFileSync, fs_unlinkSync, Buffer_from_base64,
    res_json, console_error, emit, try_catch, bind, ret, throw in H.

(** Case analysis on every oracle the run in [H] consults, innermost
    first. *)
Ltac eff_cases H :=
  repeat match type of H with
         | context [match ?x with _ => _ end] =>
             lazymatch x with
             | context [match _ with _ => _ end] => fail
             | _ => let E := fresh "E" in destruct x eqn:E; simpl in H
             end
         end.

(** Membership of an event in a computed trace. *)
Ltac trace_cases Hin :=
  simpl in Hin; unfold image_failed, processing_error, text_failed in Hin;
  repeat match type of Hin with
         | _ \/ _ => destruct Hin as [Hin|Hin]; [try discriminate Hin|]
         | False => destruct Hin
         end.

(** Every run of the handler, split by the path it takes. *)
Ltac handler_cases H :=
  eff_unfold in H;
  destruct (req_file _) as [?f|] eqn:?Hfile; simpl in H;
  [rewrite ?orb_false_r in H | rewrite ?orb_true_r in H; simpl in H];
  eff_cases H; inversion H; subst; clear H.

(** The handler always answers: the [catch] block covers the [try] block. *)
Lemma process_handler_responds (env : Env) (req : Request) (fs : Files) :
  exists r fs' tr, process_handler env req fs = (Normal r, fs', tr).
Proof.
  destruct (process_handler env req fs) as [[c fs'] tr] eqn:H.
  handler_cases H; eauto.
Qed.


(** [parsePrompt] hands back whatever object the service resolves with. *)
Lemma parsePrompt_resolved (env : Env) (prompt : string) (resp : jsobj) (fs : Files) :
  generateContent env "gemini-2.5-flash" prompt = Resolve resp ->
  parsePrompt env prompt fs = (Normal resp, fs, [EvGenerateContent "gemini-2.5-flash" prompt]).
Proof. intros H. eff_unfold. now rewrite H. Qed.

Lemma parsePrompt_fallback (env : Env) (prompt : string) (e : JsError) (fs : Files) :
  generateContent env "gemini-2.5-flash" prompt = Reject e ->
  parsePrompt env prompt fs
  = (Normal [("text", JStr prompt); ("error", JStr (err_message e))], fs,
     [EvGenerateContent "gemini-2.5-flash" prompt; EvConsoleError text_failed e]).
Proof. intros H. eff_unfold. now rewrite H. Qed.





(** For a prompt that is text or absent: when the trimmed prompt is empty,
    or no image file came with the request, the handler answers 400 with an
    error message; a
    staged upload is unlinked before the response is sent, and the run
    creates no file: its only effects are that unlink and the response. *)
Theorem missing_input_rejected (env : Env) (req : Request) (fs : Files) :
  JsString.is_empty (JsString.trim (prompt_or_empty req)) = true \/ req_file req = None ->
  (forall f, req_file req = Some f -> is_Some (fs !! path f)) ->
  exists fs',
    process_handler env req fs
    = (Normal validation_error, fs',
       match req_file req with
       | Some f => [EvUnlinkSync (path f); EvJson validation_error]
       | None => [EvJson validation_error]
       end)
    /\ status validation_error = 400
    /\ get_prop (body validation_error) "error" = JStr "Prompt and image are required."
    /\ fs' = match req_file req with
             | Some f => delete (path f) fs
             | None => fs
             end
    /\ (forall f, req_file req = Some f -> fs' !! path f = None)
    /\ (forall p, is_Some (fs' !! p) -> is_Some (fs !! p)).
Proof.
  intros Hmissing Hstaged. eexists. split; [|repeat split].
  - eff_unfold. destruct (req_file req) as [f|] eqn:Hfile; simpl.
    + destruct Hmissing as [Hp|Hn]; [|discriminate Hn]. rewrite Hp. simpl.
      destruct (Hstaged f eq_refl) as [content Hc]. rewrite Hc. reflexivity.
    + rewrite orb_true_r. reflexivity.
  - intros f Hf. rewrite Hf. apply lookup_delete_eq.
  - intros p. destruct (req_file req) as [f|]; [|tauto].
    destruct (decide (path f = p)) as [->|Hne].
    + rewrite lookup_delete_eq. intros [x Hx]. discriminate Hx.
    + now rewrite lookup_delete_ne.
Qed.

Lemma missing_input_rejected_witness :
  exists fs',
    process_handler Sample.env (mkRequest (Some "   ") (Some Sample.file)) Sample.fs
    = (Normal validation_error, fs',
       [EvUnlinkSync "storage/17-ab.png"; EvJson validation_error])
    /\ status validation_error = 400
    /\ get_prop (body validation_error) "error" = JStr "Prompt and image are required."
    /\ fs' = delete "storage/17-ab.png" Sample.fs
    /\ (forall f, Some Sample.file = Some f -> fs' !! path f = None)
    /\ (forall p, is_Some (fs' !! p) -> is_Some (Sample.fs !! p)).
Proof.
  apply (missing_input_rejected Sample.env (mkRequest (Some "   ") (Some Sample.file)) Sample.fs).
  - left. reflexivity.
  - intros f Hf. injection Hf as <-. exists [Byte.x89; Byte.x50; Byte.x4e; Byte.x47]. reflexivity.
Defined.

(** *** Requests whose prompt is not text *)

Lemma bind_ret_l {A B} (a : A) (k : A -> Eff B) (fs : Files) :
  bind (ret a) k fs = k a fs.
Proof. unfold bind, ret. now destruct (k a fs) as [[c fs2] t2]. Qed.

(** On a request in the documented form the handler is [process_handler]. *)
Lemma process_request_text (env : Env) (req : Request) (fs : Files) :
  process_request env (incoming_of req) fs = process_handler env req fs.
Proof.
  unfold process_request, process_handler, try_catch, process_try_incoming, process_try,
    incoming_of, prompt_or_empty, prompt_trimmed.
  simpl incoming_prompt. simpl incoming_file.
  destruct (body_prompt req) as [[|c s]|]; simpl truthy; cbv iota;
    rewrite bind_ret_l; reflexivity.
Qed.

(** A truthy prompt that is not a string makes [.trim()] throw: the request
    ends in the [catch] block whether or not it carries a file, and a
    staged file is left where it is. *)
Lemma non_text_prompt_throws (env : Env) (b : BodyValue) (file : option File) (fs : Files) :
  truthy b = true ->
  (forall s, b <> BodyPrimitive (JStr s)) ->
  process_request env (mkIncoming b file) fs
  = (Normal (server_error trim_type_error), fs,
     [EvConsoleError processing_error trim_type_error;
      EvJson (server_error trim_type_error)]).
Proof.
  intros Ht Hs. unfold process_request, process_try_incoming, prompt_trimmed.
  simpl incoming_prompt. rewrite Ht.
  destruct b as [[| |x|n|s]| |]; try discriminate Ht; try reflexivity.
  exfalso. exact (Hs s eq_refl).
Qed.

(** C2 (defect in the code): a request without an image whose prompt is
    the number 5, as a JSON body delivers it, is not answered 400: calling
    [.trim()] on the number throws before the validation is reached and the
    [catch] block answers 500. *)
Theorem non_text_prompt_answers_500 :
  incoming_file sample_json_request = None
  /\ process_request Sample.env sample_json_request Sample.fs
     = (Normal (server_error trim_type_error), Sample.fs,
        [EvConsoleError processing_error trim_type_error;
         EvJson (server_error trim_type_error)])
  /\ status (server_error trim_type_error) = 500
  /\ server_error trim_type_error <> validation_error.
Proof.
  split; [reflexivity|]. split; [|split; [reflexivity|discriminate]].
  apply non_text_prompt_throws; [reflexivity | discriminate].
Qed.





(** What a run looks like once [parsePrompt] has logged its fallback. *)
Lemma text_fallback_inv (env : Env) (req : Request) (fs fs' : Files)
    (c : Completion Response) (tr : list Event) (e : JsError) :
  process_handler env req fs = (c, fs', tr) ->
  In (EvConsoleError text_failed e) tr ->
  exists f,
    req_file req = Some f
    /\ generateContent env "gemini-2.5-flash" (JsString.trim (prompt_or_empty req)) = Reject e
    /\ In (EvGenerateImage "gemini-2.5-flash-image"
             (JStr (JsString.trim (prompt_or_empty req))) (path f)) tr
    /\ (forall r, c = Normal r -> status r = 200 ->
          get_prop (body r) "parsed" = JStr (JsString.trim (prompt_or_empty req)))
    /\ (forall out payload,
          generateImage env "gemini-2.5-flash-image"
            (JStr (JsString.trim (prompt_or_empty req))) (path f) = Resolve out ->
          get_prop out "imageBase64" = JStr payload ->
          disk_fault env (outPath env) = None ->
          c = Normal (mkResponse 200
                 (success_body env f [("text", JStr (JsString.trim (prompt_or_empty req)))]))).
Proof.
  intros H Hin. handler_cases H; trace_cases Hin.
  all: injection Hin as <-.
  all: exists f; repeat split; try assumption; try reflexivity;
    try (simpl; tauto);
    try (intros r Hr Hs; injection Hr as <-; simpl in Hs; try discriminate Hs; reflexivity);
    try (intros out payload Ho Hp Hd; congruence).
Qed.

(** A failed text call leaves the caller with what an answering text
    service echoing the prompt would have produced. *)
Lemma text_fallback_as_echo (env : Env) (req : Request) (fs fs' : Files)
    (c : Completion Response) (tr : list Event) (e : JsError) :
  process_handler env req fs = (c, fs', tr) ->
  In (EvConsoleError text_failed e) tr ->
  exists tr', process_handler (with_text_echo env) req fs = (c, fs', tr').
Proof.
  intros H Hin. handler_cases H; trace_cases Hin.
  all: eexists; eff_unfold; rewrite Hfile; simpl.
  all: unfold previewPath, outPath, outFilename in *; simpl.
  all: repeat match goal with
              | E : ?x = _ |- context [?x] => rewrite E; simpl
              end.
  all: reflexivity.
Qed.

(** C5: when the text call fails, [parsePrompt]'s fallback carries the
    trimmed prompt as its [text]; the handler goes on, hands that text to the
    image-edit client and, when the image is produced and stored, answers 200
    with it as [parsed]. The caller sees no trace of the failure: response
    and files are those of a run whose text service echoed the prompt. *)
Theorem text_failure_degrades (env : Env) (req : Request) (fs fs' : Files)
    (c : Completion Response) (tr : list Event) (e : JsError) :
  process_handler env req fs = (c, fs', tr) ->
  In (EvConsoleError text_failed e) tr ->
  exists f,
    req_file req = Some f
    /\ (forall fs0,
          parsePrompt env (JsString.trim (prompt_or_empty req)) fs0
          = (Normal [("text", JStr (JsString.trim (prompt_or_empty req)));
                     ("error", JStr (err_message e))], fs0,
             [EvGenerateContent "gemini-2.5-flash" (JsString.trim (prompt_or_empty req));
              EvConsoleError text_failed e]))
    /\ In (EvGenerateImage "gemini-2.5-flash-image"
             (JStr (JsString.trim (prompt_or_empty req))) (path f)) tr
    /\ (forall r, c = Normal r -> status r = 200 ->
          get_prop (body r) "parsed" = JStr (JsString.trim (prompt_or_empty req)))
    /\ (forall out payload,
          generateImage env "gemini-2.5-flash-image"
            (JStr (JsString.trim (prompt_or_empty req))) (path f) = Resolve out ->
          get_prop out "imageBase64" = JStr payload ->
          disk_fault env (outPath env) = None ->
          c = Normal (mkResponse 200
                 (success_body env f [("text", JStr (JsString.trim (prompt_or_empty req)))])))
    /\ (exists tr', process_handler (with_text_echo env) req fs = (c, fs', tr')).
Proof.
  intros H Hin.
  destruct (text_fallback_inv _ _ _ _ _ _ _ H Hin) as (f & Hf & Hrej & Hcall & Hparsed & Hok).
  exists f. split; [exact Hf|]. split; [intros fs0; now apply parsePrompt_fallback|].
  split; [exact Hcall|]. split; [exact Hparsed|]. split; [exact Hok|].
  exact (text_fallback_as_echo _ _ _ _ _ _ e H Hin).
Qed.

Lemma text_failure_degrades_witness :
  exists f,
    req_file Sample.request = Some f
    /\ (forall fs0,
          parsePrompt Sample.env_text_down (JsString.trim (prompt_or_empty Sample.request)) fs0
          = (Normal [("text", JStr (JsString.trim (prompt_or_empty Sample.request)));
                     ("error", JStr (err_message Sample.quota))], fs0,
             [EvGenerateContent "gemini-2.5-flash"
                (JsString.trim (prompt_or_empty Sample.request));
              EvConsoleError text_failed Sample.quota]))
    /\ In (EvGenerateImage "gemini-2.5-flash-image"
             (JStr (JsString.trim (prompt_or_empty Sample.request))) (path f))
          (process_handler Sample.env_text_down Sample.request Sample.fs).2
    /\ (forall r,
          (process_handler Sample.env_text_down Sample.request Sample.fs).1.1 = Normal r ->
          status r = 200 ->
          get_prop (body r) "parsed" = JStr (JsString.trim (prompt_or_empty Sample.request)))
    /\ (forall out payload,
          generateImage Sample.env_text_down "gemini-2.5-flash-image"
            (JStr (JsString.trim (prompt_or_empty Sample.request))) (path f) = Resolve out ->
          get_prop out "imageBase64" = JStr payload ->
          disk_fault Sample.env_text_down (outPath Sample.env_text_down) = None ->
          (process_handler Sample.env_text_down Sample.request Sample.fs).1.1
          = Normal (mkResponse 200
              (success_body Sample.env_text_down f
                 [("text", JStr (JsString.trim (prompt_or_empty Sample.request)))])))
    /\ (exists tr',
          process_handler (with_text_echo Sample.env_text_down) Sample.request Sample.fs
          = ((process_handler Sample.env_text_down Sample.request Sample.fs).1.1,
             (process_handler Sample.env_text_down Sample.request Sample.fs).1.2, tr')).
Proof.
  apply (text_failure_degrades Sample.env_text_down Sample.request Sample.fs)
    with (e := Sample.quota).
  - vm_compute. reflexivity.
  - vm_compute. tauto.
Defined.

Example text_down_run :
  (process_handler Sample.env_text_down Sample.request Sample.fs).1.1
  = Normal (mkResponse 200 [("success", JBool true);
                            ("parsed", JStr "make it blue");
                            ("imageUrl", JStr "/storage/out-1700000000000-6f1c.png");
                            ("previewUrl", JStr "/storage/preview-17-ab.png.webp")]).
Proof. reflexivity. Qed.

(** What a run looks like once the text service has answered without a
    [text] property. *)
Lemma missing_text_inv (env : Env) (req : Request) (fs fs' : Files)
    (c : Completion Response) (tr : list Event) (resp : jsobj) :
  process_handler env req fs = (c, fs', tr) ->
  In (EvGenerateContent "gemini-2.5-flash" (JsString.trim (prompt_or_empty req))) tr ->
  generateContent env "gemini-2.5-flash" (JsString.trim (prompt_or_empty req)) = Resolve resp ->
  get_prop resp "text" = JUndefined ->
  exists f,
    req_file req = Some f
    /\ In (EvGenerateImage "gemini-2.5-flash-image" JUndefined (path f)) tr
    /\ (forall out payload,
          generateImage env "gemini-2.5-flash-image" JUndefined (path f) = Resolve out ->
          get_prop out "imageBase64" = JStr payload ->
          disk_fault env (outPath env) = None ->
          c = Normal (mkResponse 200 (success_body env f resp))).
Proof.
  intros H Hin Hres Hundef. handler_cases H; trace_cases Hin.
  all: try discriminate Hres.
  all: injection Hres as Hres; subst; rewrite Hundef in *.
  all: exists f; repeat split; try (simpl; tauto);
    intros out payload Ho Hp Hd; congruence.
Qed.

(** C10: [parsePrompt] returns a resolved response as it is. When that
    response has no [text] property, the image-edit client is called with
    [undefined] as its instructions; if the image is produced and stored the
    handler answers 200, the body's [parsed] is [undefined] and the
    serialized JSON has no [parsed] member. No error comes of the missing
    text. *)
Theorem missing_text_passes_undefined (env : Env) (req : Request) (fs fs' : Files)
    (c : Completion Response) (tr : list Event) (resp : jsobj) :
  process_handler env req fs = (c, fs', tr) ->
  In (EvGenerateContent "gemini-2.5-flash" (JsString.trim (prompt_or_empty req))) tr ->
  generateContent env "gemini-2.5-flash" (JsString.trim (prompt_or_empty req)) = Resolve resp ->
  get_prop resp "text" = JUndefined ->
  exists f,
    req_file req = Some f
    /\ (forall fs0,
          parsePrompt env (JsString.trim (prompt_or_empty req)) fs0
          = (Normal resp, fs0,
             [EvGenerateContent "gemini-2.5-flash" (JsString.trim (prompt_or_empty req))]))
    /\ In (EvGenerateImage "gemini-2.5-flash-image" JUndefined (path f)) tr
    /\ (forall out payload,
          generateImage env "gemini-2.5-flash-image" JUndefined (path f) = Resolve out ->
          get_prop out "imageBase64" = JStr payload ->
          disk_fault env (outPath env) = None ->
          exists r,
            c = Normal r
            /\ status r = 200
            /\ get_prop (body r) "success" = JBool true
            /\ get_prop (body r) "parsed" = JUndefined
            /\ JSON.keys (body r) = ["success"; "imageUrl"; "previewUrl"]
            /\ wire_body r
               = JSON.stringify
                   [("success", JBool true);
                    ("imageUrl", JStr ("/storage/" +:+ outFilename env));
                    ("previewUrl", JStr ("/storage/" +:+ previewName f))]).
Proof.
  intros H Hin Hres Hundef.
  destruct (missing_text_inv _ _ _ _ _ _ _ H Hin Hres Hundef) as (f & Hf & Hcall & Hok).
  exists f. split; [exact Hf|]. split; [intros fs0; now apply parsePrompt_resolved|].
  split; [exact Hcall|].
  intros out payload Ho Hp Hd. rewrite (Hok out payload Ho Hp Hd).
  eexists. split; [reflexivity|].
  unfold wire_body, success_body. simpl. rewrite Hundef, basename_previewPath.
  repeat split; reflexivity.
Qed.

Lemma missing_text_passes_undefined_witness :
  exists f,
    req_file Sample.request = Some f
    /\ (forall fs0,
          parsePrompt Sample.env_no_text (JsString.trim (prompt_or_empty Sample.request)) fs0
          = (Normal [("candidates", JNull)], fs0,
             [EvGenerateContent "gemini-2.5-flash"
                (JsString.trim (prompt_or_empty Sample.request))]))
    /\ In (EvGenerateImage "gemini-2.5-flash-image" JUndefined (path f))
          (process_handler Sample.env_no_text Sample.request Sample.fs).2
    /\ (forall out payload,
          generateImage Sample.env_no_text "gemini-2.5-flash-image" JUndefined (path f)
          = Resolve out ->
          get_prop out "imageBase64" = JStr payload ->
          disk_fault Sample.env_no_text (outPath Sample.env_no_text) = None ->
          exists r,
            (process_handler Sample.env_no_text Sample.request Sample.fs).1.1 = Normal r
            /\ status r = 200
            /\ get_prop (body r) "success" = JBool true
            /\ get_prop (body r) "parsed" = JUndefined
            /\ JSON.keys (body r) = ["success"; "imageUrl"; "previewUrl"]
            /\ wire_body r
               = JSON.stringify
                   [("success", JBool true);
                    ("imageUrl", JStr ("/storage/" +:+ outFilename Sample.env_no_text));
                    ("previewUrl", JStr ("/storage/" +:+ previewName f))]).
Proof.
  apply (missing_text_passes_undefined Sample.env_no_text Sample.request Sample.fs)
    with (resp := [("candidates", JNull)])
         (fs' := (process_handler Sample.env_no_text Sample.request Sample.fs).1.2).
  - vm_compute. reflexivity.
  - vm_compute. tauto.
  - reflexivity.
  - reflexivity.
Defined.

Example no_text_run_wire :
  match (process_handler Sample.env_no_text Sample.request Sample.fs).1.1 with
  | Normal r => JSON.keys (body r)
  | Thrown _ => []
  end = ["success"; "imageUrl"; "previewUrl"].
Proof. reflexivity. Qed.

(** C8: a body with [success: true] is sent only after the output file has
    been written: the write is the effect right before the response, it did
    not fault, and the file is in the store under the name the response
    gives. A write that faults ends the request in the error handler's 500,
    whose body has no [success] member. *)
Theorem success_only_after_write (env : Env) (req : Request) (fs fs' : Files)
    (c : Completion Response) (tr : list Event) :
  process_handler env req fs = (c, fs', tr) ->
  exists r,
    c = Normal r
    /\ (get_prop (body r) "success" = JBool true ->
        exists pre data,
          tr = pre ++ [EvWriteFileSync (outPath env) data; EvJson r]
          /\ disk_fault env (outPath env) = None
          /\ fs' !! outPath env = Some data
          /\ status r = 200
          /\ get_prop (body r) "imageUrl" = JStr ("/storage/" +:+ outFilename env))
    /\ (forall p data err,
          In (EvWriteFileSync p data) tr -> disk_fault env p = Some err ->
          r = server_error err /\ has_prop (body r) "success" = false).
Proof.
  intros H. handler_cases H.
  all: eexists; split; [reflexivity|]; split.
  all: try (intros Hs; simpl in Hs; discriminate Hs).
  all: try (intros wp wdata werr Hin Hd; trace_cases Hin;
            try (injection Hin as <- <-); unfold server_error;
            first [exfalso; congruence | split; [congruence | reflexivity]]).
  all: intros _;
    match goal with
    | |- exists pre data, ?l = _ /\ _ => exists (removelast (removelast l))
    end;
    eexists; split; [reflexivity|];
    repeat split; try assumption; try reflexivity; apply lookup_insert_eq.
Qed.

Lemma success_only_after_write_witness :
  exists r,
    (process_handler Sample.env Sample.request Sample.fs).1.1 = Normal r
    /\ (get_prop (body r) "success" = JBool true ->
        exists pre data,
          (process_handler Sample.env Sample.request Sample.fs).2
          = pre ++ [EvWriteFileSync (outPath Sample.env) data; EvJson r]
          /\ disk_fault Sample.env (outPath Sample.env) = None
          /\ (process_handler Sample.env Sample.request Sample.fs).1.2
               !! outPath Sample.env = Some data
          /\ status r = 200
          /\ get_prop (body r) "imageUrl" = JStr ("/storage/" +:+ outFilename Sample.env))
    /\ (forall p data err,
          In (EvWriteFileSync p data) (process_handler Sample.env Sample.request Sample.fs).2 ->
          disk_fault Sample.env p = Some err ->
          r = server_error err /\ has_prop (body r) "success" = false).
Proof.
  apply (success_only_after_write Sample.env Sample.request Sample.fs).
  vm_compute. reflexivity.
Defined.

Example disk_full_run :
  (process_handler Sample.env_disk_full Sample.request Sample.fs).1.1
  = Normal (server_error (mkError "Error" "ENOSPC: no space left on device, write"))
  /\ (process_handler Sample.env_disk_full Sample.request Sample.fs).1.2
       !! outPath Sample.env_disk_full = None.
Proof. split; reflexivity. Qed.

(** Membership in a computed list of stages or events. *)
Ltac in_cases Hin :=
  simpl in Hin;
  repeat match type of Hin with
         | _ \/ _ => destruct Hin as [Hin|Hin]; [try discriminate Hin|]
         | False => destruct Hin
         end.

Ltac use_oracles :=
  repeat match goal with
         | E : ?x = _ |- context [?x] => rewrite E; simpl
         end.

(** Each step works on what the step before it has produced. *)
Lemma steps_consume_results (env : Env) (req : Request) (fs fs' : Files)
    (c : Completion Response) (tr : list Event) :
  process_handler env req fs = (c, fs', tr) ->
  each_step_after_previous env req fs' tr.
Proof.
  intros H. unfold each_step_after_previous. handler_cases H.
  all: split; [intros Hin; in_cases Hin; (split; [first [assumption | reflexivity] | eauto])|].
  all: split; [intros Hin; in_cases Hin;
               (eexists _, _; split; [reflexivity|];
                rewrite ?lookup_insert_ne by (apply not_eq_sym, previewPath_neq_outPath);
                apply lookup_insert_eq)|].
  all: split; [intros m contents image Hin; in_cases Hin;
               (injection Hin as <- <- <-; eexists;
                split; [intros fs0; eff_unfold; use_oracles; reflexivity | reflexivity])|].
  all: intros p data Hin; in_cases Hin; injection Hin as <- <-.
  all: eexists f, _, _, _; split; [reflexivity|]; split; [simpl; tauto|];
    split; [intros fs0; eff_unfold; use_oracles; reflexivity|];
    split; [eassumption|]; split; reflexivity.
Qed.

(** C9: the effects of one request come in the order of the pipeline. The
    steps a run reaches are an initial segment of preview, interpret, edit,
    persist (or the single cleanup of a rejected request), with the response
    as the last effect; a 200 has gone through all four, once each. A step is
    begun only once the one before it has finished: it works on that step's
    result. *)
Theorem steps_run_in_order (env : Env) (req : Request) (fs fs' : Files)
    (c : Completion Response) (tr : list Event) :
  process_handler env req fs = (c, fs', tr) ->
  (exists pre,
     stages tr = pre ++ [Respond]
     /\ (pre = [Validate] \/ exists n, pre = take n working_steps)
     /\ (forall r, c = Normal r -> status r = 200 -> pre = working_steps))
  /\ each_step_after_previous env req fs' tr.
Proof.
  intros H. split; [|exact (steps_consume_results _ _ _ _ _ _ H)].
  handler_cases H.
  all: match goal with
       | |- exists pre, stages ?l = _ /\ _ =>
           exists (removelast (stages l))
       end.
  all: split; [reflexivity|]; split.
  all: try (intros r Hr Hs; injection Hr as <-; simpl in Hs; try discriminate Hs; reflexivity).
  all: first [ left; reflexivity
             | right; exists 0%nat; reflexivity
             | right; exists 1%nat; reflexivity
             | right; exists 2%nat; reflexivity
             | right; exists 3%nat; reflexivity
             | right; exists 4%nat; reflexivity ].
Qed.

Lemma steps_run_in_order_witness :
  (exists pre,
     stages (process_handler Sample.env Sample.request Sample.fs).2 = pre ++ [Respond]
     /\ (pre = [Validate] \/ exists n, pre = take n working_steps)
     /\ (forall r,
           (process_handler Sample.env Sample.request Sample.fs).1.1 = Normal r ->
           status r = 200 -> pre = working_steps))
  /\ each_step_after_previous Sample.env Sample.request
       (process_handler Sample.env Sample.request Sample.fs).1.2
       (process_handler Sample.env Sample.request Sample.fs).2.
Proof.
  apply (steps_run_in_order Sample.env Sample.request Sample.fs).
  vm_compute. reflexivity.
Defined.

Example sample_run_stages :
  stages (process_handler Sample.env Sample.request Sample.fs).2
  = [Preview; Interpret; Edit; Persist; Respond].
Proof. reflexivity. Qed.

(** ** [GET /health] *)

Lemma GET_health_passed (env : Env) (client : string) (lim : Limiter) :
  (rateLimit (Date_now env) client lim).1 = true ->
  (GET_health env client lim).1 = health_ok (Date_now env).
Proof.
  unfold GET_health. destruct (rateLimit (Date_now env) client lim) as [pass lim'].
  simpl. intros ->. reflexivity.
Qed.

Lemma GET_health_refused (env : Env) (client : string) (lim : Limiter) :
  (rateLimit (Date_now env) client lim).1 = false ->
  (GET_health env client lim).1 = TooManyRequests.
Proof.
  unfold GET_health. destruct (rateLimit (Date_now env) client lim) as [pass lim'].
  simpl. intros ->. reflexivity.
Qed.

(** C7 as stated fails twice over: two calls handled within one
    millisecond carry the same [ts], and the sixty-first call of a window is
    answered by the rate limiter, not by the handler. *)
Lemma health_ts_not_strict :
  ~ ts_increases
      (GET_health Sample.env "203.0.113.7" ∅).1
      (GET_health Sample.env "203.0.113.7" (GET_health Sample.env "203.0.113.7" ∅).2).1
  /\ (GET_health Sample.env "203.0.113.7" ∅).1 = health_ok 1700000000000
  /\ (GET_health Sample.env "203.0.113.7" (GET_health Sample.env "203.0.113.7" ∅).2).1
     = health_ok 1700000000000
  /\ nth 60 (GET_health_repeat 61 Sample.env "203.0.113.7" ∅).1 (health_ok 0)
     = TooManyRequests.
Proof.
  split; [|repeat split; vm_compute; reflexivity].
  vm_compute. discriminate.
Qed.

(** C7 (amended): a [GET /health] request the rate limiter lets through is
    answered 200 with [{status: "ok", ts}], [ts] being the clock reading
    taken while it is handled. Over two successive such calls, the second
    read no earlier than the first, [ts] does not decrease, and it increases
    exactly when the clock has advanced between them. *)
Theorem health_ts_follows_clock (env1 env2 : Env) (client : string) (lim : Limiter) :
  Date_now env1 <= Date_now env2 ->
  (rateLimit (Date_now env1) client lim).1 = true ->
  (rateLimit (Date_now env2) client (GET_health env1 client lim).2).1 = true ->
  (GET_health env1 client lim).1 = health_ok (Date_now env1)
  /\ (GET_health env2 client (GET_health env1 client lim).2).1 = health_ok (Date_now env2)
  /\ (exists t1 t2,
        ts_of (GET_health env1 client lim).1 = JNum t1
        /\ ts_of (GET_health env2 client (GET_health env1 client lim).2).1 = JNum t2
        /\ t1 <= t2)
  /\ (ts_increases (GET_health env1 client lim).1
        (GET_health env2 client (GET_health env1 client lim).2).1
      <-> Date_now env1 < Date_now env2).
Proof.
  intros Hclock H1 H2.
  rewrite (GET_health_passed _ _ _ H1), (GET_health_passed _ _ _ H2).
  split; [reflexivity|]. split; [reflexivity|]. split.
  - exists (Date_now env1), (Date_now env2). repeat split. exact Hclock.
  - unfold ts_increases. simpl. tauto.
Qed.

Lemma health_ts_follows_clock_witness :
  (GET_health Sample.env "203.0.113.7" ∅).1 = health_ok 1700000000000
  /\ (GET_health (at_time Sample.env 1700000000001) "203.0.113.7"
        (GET_health Sample.env "203.0.113.7" ∅).2).1 = health_ok 1700000000001
  /\ (exists t1 t2,
        ts_of (GET_health Sample.env "203.0.113.7" ∅).1 = JNum t1
        /\ ts_of (GET_health (at_time Sample.env 1700000000001) "203.0.113.7"
                    (GET_health Sample.env "203.0.113.7" ∅).2).1 = JNum t2
        /\ t1 <= t2)
  /\ (ts_increases (GET_health Sample.env "203.0.113.7" ∅).1
        (GET_health (at_time Sample.env 1700000000001) "203.0.113.7"
           (GET_health Sample.env "203.0.113.7" ∅).2).1
      <-> 1700000000000 < 1700000000001).
Proof.
  apply (health_ts_follows_clock Sample.env (at_time Sample.env 1700000000001)
           "203.0.113.7" ∅).
  - simpl. lia.
  - vm_compute. reflexivity.
  - vm_compute. reflexivity.
Defined.

(** The limiter lets the first [max_requests] requests of a window through
    and refuses the next. *)
Example limiter_window :
  map (fun r => match r with Served _ => true | TooManyRequests => false end)
    (GET_health_repeat 61 Sample.env "203.0.113.7" ∅).1
  = repeat true 60 ++ [false].
Proof. vm_compute. reflexivity. Qed.

(** * Further properties *)

(** ** Trimming *)

Lemma trimStart_head (l : list ascii) (c : ascii) (t : list ascii) :
  JsString.trimStart_chars l = c :: t -> JsString.is_whitespace c = false.
Proof.
  induction l as [|a l IH]; simpl; [discriminate|].
  destruct (JsString.is_whitespace a) eqn:E; [exact IH|].
  intros H. injection H as <- _. exact E.
Qed.

Lemma trimStart_suffix (l : list ascii) :
  exists pre, l = pre ++ JsString.trimStart_chars l.
Proof.
  induction l as [|a l [pre IH]]; simpl; [now exists []|].
  destruct (JsString.is_whitespace a).
  - exists (a :: pre). simpl. now f_equal.
  - now exists [].
Qed.

Lemma trimStart_all_whitespace (l : list ascii) :
  forallb JsString.is_whitespace l = true -> JsString.trimStart_chars l = [].
Proof.
  induction l as [|a l IH]; simpl; [reflexivity|].
  intros H. apply andb_true_iff in H as [Ha Hl]. rewrite Ha. now apply IH.
Qed.

Lemma trim_all_whitespace (s : string) :
  all_whitespace s = true -> JsString.trim s = EmptyString.
Proof.
  unfold all_whitespace, JsString.trim. intros H.
  now rewrite (trimStart_all_whitespace _ H).
Qed.

(** A trimmed string neither begins nor ends with white space. *)
Lemma trim_edges (s : string) :
  head_is_whitespace (JsString.trim s) = false
  /\ last_is_whitespace (JsString.trim s) = false.
Proof.
  unfold head_is_whitespace, last_is_whitespace, JsString.trim.
  rewrite chars_of_chars, rev_involutive.
  set (t := JsString.trimStart_chars (JsString.chars s)).
  set (u := JsString.trimStart_chars (rev t)). split.
  - destruct (rev u) as [|c r] eqn:Hr; [reflexivity|].
    destruct (trimStart_suffix (rev t)) as [pre Hpre]. fold u in Hpre.
    apply (f_equal (@rev ascii)) in Hpre.
    rewrite rev_involutive, rev_app_distr, Hr in Hpre. simpl in Hpre.
    exact (trimStart_head _ _ _ Hpre).
  - destruct u as [|c r] eqn:Hu; [reflexivity|].
    exact (trimStart_head _ _ _ Hu).
Qed.

(** ** The handler's responses *)

(** X1: every run sends exactly one response, as its last effect, and the
    response is the 400 of the validation, a 500 of the [catch] block or
    the 200 success body. *)
Theorem one_response_per_request (env : Env) (req : Request) (fs fs' : Files)
    (c : Completion Response) (tr : list Event) :
  process_handler env req fs = (c, fs', tr) ->
  exists r pre,
    c = Normal r
    /\ tr = pre ++ [EvJson r]
    /\ existsb is_json pre = false
    /\ (r = validation_error
        \/ (exists e, r = server_error e)
        \/ (exists f parsed,
              req_file req = Some f /\ r = mkResponse 200 (success_body env f parsed))).
Proof.
  intros H. handler_cases H.
  all: match goal with
       | |- exists r pre, Normal ?x = _ /\ ?l = _ /\ _ =>
           exists x, (removelast l)
       end.
  all: split; [reflexivity|]; split; [reflexivity|]; split; [reflexivity|].
  all: first [ left; reflexivity
             | right; left; eexists; reflexivity
             | right; right; eexists _, _; split; reflexivity ].
Qed.

Lemma one_response_per_request_witness :
  exists r pre,
    (process_handler Sample.env Sample.request Sample.fs).1.1 = Normal r
    /\ (process_handler Sample.env Sample.request Sample.fs).2 = pre ++ [EvJson r]
    /\ existsb is_json pre = false
    /\ (r = validation_error
        \/ (exists e, r = server_error e)
        \/ (exists f parsed,
              req_file Sample.request = Some f
              /\ r = mkResponse 200 (success_body Sample.env f parsed))).
Proof.
  apply (one_response_per_request Sample.env Sample.request Sample.fs)
    with (fs' := (process_handler Sample.env Sample.request Sample.fs).1.2).
  vm_compute. reflexivity.
Defined.

(** ** The file store *)

Lemma string_length_app (a b : string) :
  String.length (a +:+ b) = (String.length a + String.length b)%nat.
Proof.
  induction a as [|c a IH]; [reflexivity|].
  change (String c a +:+ b) with (String c (a +:+ b)). simpl. now rewrite IH.
Qed.

(** The preview is never written over the upload it is made from. *)
Lemma previewPath_neq_upload (env : Env) (f : File) : previewPath env f <> path f.
Proof.
  intros E. assert (B : Path.basename (path f) = previewName f).
  { rewrite <- E at 1. apply basename_previewPath. }
  unfold previewName in B. apply (f_equal String.length) in B.
  rewrite !string_length_app in B. simpl in B. lia.
Qed.



Example unlink_failure_masks_400 :
  (process_handler Sample.env (mkRequest None (Some Sample.file)) ∅).1.1
  = Normal (server_error (unlink_enoent "storage/17-ab.png")).
Proof. reflexivity. Qed.

(** ** The remote calls and the payload *)

Lemma payload_type_error_null : payload_type_error JNull = null_payload_error.
Proof. reflexivity. Qed.



(** X6: the text service is only ever called with the trimmed prompt, which
    is then not empty and neither begins nor ends with white space; the
    image service is only ever called on the upload itself, not on its
    preview. *)
Theorem remote_call_arguments (env : Env) (req : Request) (fs fs' : Files)
    (c : Completion Response) (tr : list Event) :
  process_handler env req fs = (c, fs', tr) ->
  (forall m contents,
     In (EvGenerateContent m contents) tr ->
     m = "gemini-2.5-flash"
     /\ contents = JsString.trim (prompt_or_empty req)
     /\ JsString.is_empty contents = false
     /\ head_is_whitespace contents = false
     /\ last_is_whitespace contents = false)
  /\ (forall m contents image,
        In (EvGenerateImage m contents image) tr ->
        m = "gemini-2.5-flash-image"
        /\ exists f, req_file req = Some f /\ image = path f /\ image <> previewPath env f).
Proof.
  intros H.
  destruct (trim_edges (prompt_or_empty req)) as [Hh Hl].
  destruct (JsString.is_empty (JsString.trim (prompt_or_empty req))) eqn:He.
  - handler_cases H; try discriminate.
    all: split; [intros m contents Hin | intros m contents image Hin]; in_cases Hin.
  - handler_cases H; try discriminate.
    all: split; [intros m contents Hin | intros m contents image Hin]; in_cases Hin.
    all: try (injection Hin as <- <-; repeat split; assumption).
    all: injection Hin as <- <- <-; split; [reflexivity|]; exists f;
      split; [reflexivity|]; split; [reflexivity|];
      apply not_eq_sym, previewPath_neq_upload.
Qed.

Lemma remote_call_arguments_witness :
  (forall m contents,
     In (EvGenerateContent m contents)
        (process_handler Sample.env Sample.request Sample.fs).2 ->
     m = "gemini-2.5-flash"
     /\ contents = JsString.trim (prompt_or_empty Sample.request)
     /\ JsString.is_empty contents = false
     /\ head_is_whitespace contents = false
     /\ last_is_whitespace contents = false)
  /\ (forall m contents image,
        In (EvGenerateImage m contents image)
           (process_handler Sample.env Sample.request Sample.fs).2 ->
        m = "gemini-2.5-flash-image"
        /\ exists f,
             req_file Sample.request = Some f /\ image = path f
             /\ image <> previewPath Sample.env f).
Proof.
  apply (remote_call_arguments Sample.env Sample.request Sample.fs
           (process_handler Sample.env Sample.request Sample.fs).1.2
           (process_handler Sample.env Sample.request Sample.fs).1.1).
  vm_compute. reflexivity.
Defined.

Example sample_prompt_trimmed :
  JsString.trim "  make it blue " = "make it blue".
Proof. reflexivity. Qed.

(** X7: a prompt that is absent or made of white space only (spaces, tabs,
    line breaks, no-break spaces) counts as missing: the request is answered
    400, its staged upload is unlinked, and neither the image library nor a
    remote service is called. *)
Theorem blank_prompt_rejected (env : Env) (req : Request) (fs : Files) :
  (forall s, body_prompt req = Some s -> all_whitespace s = true) ->
  (forall f, req_file req = Some f -> is_Some (fs !! path f)) ->
  process_handler env req fs
  = (Normal validation_error,
     match req_file req with
     | Some f => delete (path f) fs
     | None => fs
     end,
     match req_file req with
     | Some f => [EvUnlinkSync (path f); EvJson validation_error]
     | None => [EvJson validation_error]
     end).
Proof.
  intros Hblank Hstaged.
  assert (Hp : JsString.trim (prompt_or_empty req) = EmptyString).
  { unfold prompt_or_empty. destruct (body_prompt req) as [s|]; [|reflexivity].
    apply trim_all_whitespace, Hblank. reflexivity. }
  eff_unfold. rewrite Hp. simpl.
  destruct (req_file req) as [f|]; simpl; [|reflexivity].
  destruct (Hstaged f eq_refl) as [content Hc]. rewrite Hc. reflexivity.
Qed.

Lemma blank_prompt_rejected_witness :
  process_handler Sample.env
    (mkRequest (Some (String (ascii_of_nat 9) (String (ascii_of_nat 160) " ")))
       (Some Sample.file)) Sample.fs
  = (Normal validation_error, delete (path Sample.file) Sample.fs,
     [EvUnlinkSync (path Sample.file); EvJson validation_error]).
Proof.
  apply (blank_prompt_rejected Sample.env
           (mkRequest (Some (String (ascii_of_nat 9) (String (ascii_of_nat 160) " ")))
              (Some Sample.file)) Sample.fs).
  - intros s Hs. injection Hs as <-. reflexivity.
  - intros f Hf. injection Hf as <-.
    exists [Byte.x89; Byte.x50; Byte.x4e; Byte.x47]. reflexivity.
Defined.



(** ** Derived file names *)

Lemma string_of_uint_digits (d : Decimal.uint) :
  forallb is_digit (JsString.chars (NilEmpty.string_of_uint d)) = true.
Proof. induction d; simpl; auto. Qed.

(** A decimal numeral has at least one character and only digits. *)
Lemma numeral_digits (d : Decimal.uint) :
  exists c r,
    JsString.chars (NilZero.string_of_uint d) = c :: r
    /\ is_digit c = true /\ forallb is_digit r = true.
Proof.
  pose proof (string_of_uint_digits d) as H.
  destruct d; simpl in *; eexists _, _; (split; [reflexivity|]);
    try apply andb_true_iff in H; try tauto; split; reflexivity.
Qed.

(** Two digit runs that end at a dash end at the same place. *)
Lemma digits_delimited (a b x y : list ascii) :
  forallb is_digit a = true -> forallb is_digit b = true ->
  a ++ "-"%char :: x = b ++ "-"%char :: y -> a = b /\ x = y.
Proof.
  revert b. induction a as [|c a IH]; intros [|c' b] Ha Hb E; simpl in *.
  - injection E as <-. split; reflexivity.
  - injection E as <- _. apply andb_true_iff in Hb as [Hc _]. discriminate Hc.
  - injection E as -> _. apply andb_true_iff in Ha as [Hc _]. discriminate Hc.
  - injection E as <- E. apply andb_true_iff in Ha as [_ Ha].
    apply andb_true_iff in Hb as [_ Hb].
    destruct (IH b Ha Hb E) as [-> ->]. split; reflexivity.
Qed.

Lemma of_Z_delimited (t1 t2 : Z) (x y : list ascii) :
  JsString.chars (JsString.of_Z t1) ++ "-"%char :: x
  = JsString.chars (JsString.of_Z t2) ++ "-"%char :: y ->
  JsString.of_Z t1 = JsString.of_Z t2 /\ x = y.
Proof.
  unfold JsString.of_Z, NilZero.string_of_int.
  destruct (Z.to_int t1) as [d1|d1], (Z.to_int t2) as [d2|d2];
    destruct (numeral_digits d1) as (c1 & r1 & E1 & Hc1 & Hr1);
    destruct (numeral_digits d2) as (c2 & r2 & E2 & Hc2 & Hr2);
    unfold JsString.chars in *; simpl; rewrite ?E1, ?E2; intros E.
  - destruct (digits_delimited (c1 :: r1) (c2 :: r2) x y) as [Hd ->];
      [simpl; now rewrite Hc1 | simpl; now rewrite Hc2 | exact E |].
    split; [|reflexivity].
    rewrite <- (string_of_list_ascii_of_string (NilZero.string_of_uint d1)),
      <- (string_of_list_ascii_of_string (NilZero.string_of_uint d2)).
    now rewrite E1, E2, Hd.
  - simpl in E. injection E as -> _. discriminate Hc1.
  - simpl in E. injection E as <- _. discriminate Hc2.
  - simpl in E. injection E as Ec E. subst c2.
    destruct (digits_delimited r1 r2 x y Hr1 Hr2 E) as [Hd ->].
    split; [|reflexivity]. f_equal.
    rewrite <- (string_of_list_ascii_of_string (NilZero.string_of_uint d1)),
      <- (string_of_list_ascii_of_string (NilZero.string_of_uint d2)).
    now rewrite E1, E2, Hd.
Qed.

Lemma to_int_proper (t : Z) : Z.to_int t <> Decimal.Pos Decimal.Nil /\ Z.to_int t <> Decimal.Neg Decimal.Nil.
Proof.
  destruct t as [|p|p]; simpl; split; try discriminate;
    intros E; injection E as E; exact (DecimalPos.Unsigned.to_uint_nonnil p E).
Qed.

(** [String(n)] tells integers apart. *)
Lemma of_Z_inj (t1 t2 : Z) : JsString.of_Z t1 = JsString.of_Z t2 -> t1 = t2.
Proof.
  unfold JsString.of_Z. intros E. apply DecimalZ.to_int_inj.
  destruct (to_int_proper t1) as [P1 N1], (to_int_proper t2) as [P2 N2].
  pose proof (NilZero.isi _ P1 N1) as I1. pose proof (NilZero.isi _ P2 N2) as I2.
  rewrite E in I1. congruence.
Qed.

Lemma append_inj_r (a b s : string) : a +:+ s = b +:+ s -> a = b.
Proof.
  intros E. apply (f_equal JsString.chars) in E. rewrite !chars_app in E.
  apply app_inv_tail in E.
  rewrite <- (of_chars_chars a), <- (of_chars_chars b). now rewrite E.
Qed.

(** X9: the output name tells requests apart. For one storage directory
    and identifiers free of slashes, as [uuidv4] draws them, two requests
    get the same output path only if they read the same clock value and
    drew the same identifier. *)
Theorem outPath_unique (env1 env2 : Env) :
  STORAGE_DIR env1 = STORAGE_DIR env2 ->
  Path.has_slash (uuidv4 env1) = false ->
  Path.has_slash (uuidv4 env2) = false ->
  outPath env1 = outPath env2 ->
  Date_now env1 = Date_now env2 /\ uuidv4 env1 = uuidv4 env2.
Proof.
  unfold outPath, Path.join, outFilename. intros -> _ _ E.
  apply append_inj_l in E. apply (append_inj_l "/") in E.
  apply (append_inj_l "out-") in E.
  apply (f_equal JsString.chars) in E. rewrite !chars_app in E.
  change (JsString.chars "-") with ["-"%char] in E. simpl in E.
  apply of_Z_delimited in E as [Ht Hu]. split; [now apply of_Z_inj|].
  apply app_inv_tail in Hu.
  rewrite <- (of_chars_chars (uuidv4 env1)), <- (of_chars_chars (uuidv4 env2)).
  now rewrite Hu.
Qed.

Lemma outPath_unique_witness :
  Date_now Sample.env = Date_now Sample.env_text_down
  /\ uuidv4 Sample.env = uuidv4 Sample.env_text_down.
Proof.
  apply (outPath_unique Sample.env Sample.env_text_down); reflexivity.
Defined.

(** X10: the preview path is a function of the upload's base name and
    nothing else: two uploads share a preview path exactly when their staged
    paths have the same base name. *)
Theorem previewPath_by_basename (env : Env) (f1 f2 : File) :
  previewPath env f1 = previewPath env f2
  <-> Path.basename (path f1) = Path.basename (path f2).
Proof.
  unfold previewPath, Path.join, previewName. split.
  - intros E. apply append_inj_l in E. apply (append_inj_l "/") in E.
    apply (append_inj_l "preview-") in E. now apply append_inj_r in E.
  - intros ->. reflexivity.
Qed.

(** ** More on the upload filter *)

Lemma prefix_app (p b : string) : String.prefix p (p +:+ b) = true.
Proof.
  induction p as [|c p IH].
  - change (EmptyString +:+ b) with b. now destruct b.
  - change (String c p +:+ b) with (String c (p +:+ b)). simpl.
    destruct (ascii_dec c c); [exact IH | congruence].
Qed.

Lemma includes_prefix (pat s : string) :
  String.prefix pat s = true -> JsString.includes pat s = true.
Proof. destruct s; simpl; intros ->; reflexivity. Qed.

Lemma includes_app (pat a b : string) :
  JsString.includes pat (a +:+ pat +:+ b) = true.
Proof.
  induction a as [|c a IH].
  - change (EmptyString +:+ pat +:+ b) with (pat +:+ b).
    apply includes_prefix, prefix_app.
  - change (String c a +:+ pat +:+ b) with (String c (a +:+ pat +:+ b)).
    simpl. rewrite IH. apply orb_true_r.
Qed.

Lemma rev_app_app (a b c : string) :
  String.rev_app (a +:+ b) c = String.rev_app b (String.rev_app a c).
Proof.
  revert c. induction a as [|x a IH]; intros c; [reflexivity|].
  change (String x a +:+ b) with (String x (a +:+ b)). simpl. apply IH.
Qed.

Lemma rev_app_acc (a c : string) :
  String.rev_app a c = String.rev_app a EmptyString +:+ c.
Proof.
  revert c. induction a as [|x a IH]; intros c; [reflexivity|].
  simpl. rewrite (IH (String x c)), (IH (String x EmptyString)).
  generalize (String.rev_app a EmptyString). intros r.
  induction r as [|y r IHr]; [reflexivity|].
  change (String y r +:+ String x c) with (String y (r +:+ String x c)).
  change ((String y r +:+ String x EmptyString) +:+ c)
    with (String y ((r +:+ String x EmptyString) +:+ c)).
  now rewrite IHr.
Qed.

Lemma endsWith_app (a s : string) : JsString.endsWith s (a +:+ s) = true.
Proof.
  unfold JsString.endsWith, String.rev.
  rewrite rev_app_app, (rev_app_acc s (String.rev_app a EmptyString)).
  apply prefix_app.
Qed.

Lemma toLowerCase_app (a b : string) :
  JsString.toLowerCase (a +:+ b) = JsString.toLowerCase a +:+ JsString.toLowerCase b.
Proof.
  unfold JsString.toLowerCase. rewrite chars_app, map_app.
  rewrite <- (of_chars_chars (JsString.of_chars _ +:+ JsString.of_chars _)).
  now rewrite chars_app, !chars_of_chars.
Qed.

(** X11: the MIME pattern matches anywhere: a file whose MIME type has
    [jpeg], [jpg], [png] or [webp] somewhere in it is accepted, whatever
    surrounds the token and whatever the file is called. *)
Theorem mime_token_anywhere_accepted (name before token after staged : string) :
  In token mime_tokens ->
  fileFilter (mkFile name (before +:+ token +:+ after) staged) = (None, true)
  /\ upload_filter_step (mkFile name (before +:+ token +:+ after) staged) = NextHandler.
Proof.
  intros Hin.
  assert (A : fileFilter_allowed (mkFile name (before +:+ token +:+ after) staged) = true).
  { unfold fileFilter_allowed, mimetype_regex_test. simpl mimetype.
    simpl in Hin. destruct Hin as [<-|[<-|[<-|[<-|[]]]]];
      rewrite includes_app; rewrite ?orb_true_r; reflexivity. }
  unfold upload_filter_step, fileFilter. rewrite A. split; reflexivity.
Qed.

Lemma mime_token_anywhere_accepted_witness :
  fileFilter (mkFile "notes.txt" ("text/x-" +:+ "png" +:+ "-notes") EmptyString) = (None, true)
  /\ upload_filter_step (mkFile "notes.txt" ("text/x-" +:+ "png" +:+ "-notes") EmptyString)
     = NextHandler.
Proof.
  apply (mime_token_anywhere_accepted "notes.txt" "text/x-" "png" "-notes" EmptyString).
  simpl. tauto.
Defined.

(** X12: the name pattern looks at the end of the name only and ignores
    letter case: a name ending in [.jpg], [.jpeg], [.png] or [.webp], in
    any mix of capitals, is accepted whatever the MIME type says. *)
Theorem name_suffix_any_case_accepted (stem ext mime staged : string) :
  In (JsString.toLowerCase ext) name_suffixes ->
  fileFilter (mkFile (stem +:+ ext) mime staged) = (None, true)
  /\ upload_filter_step (mkFile (stem +:+ ext) mime staged) = NextHandler.
Proof.
  intros Hin.
  assert (A : fileFilter_allowed (mkFile (stem +:+ ext) mime staged) = true).
  { unfold fileFilter_allowed, extension_regex_test. simpl originalname.
    rewrite toLowerCase_app. simpl in Hin.
    destruct Hin as [E|[E|[E|[E|[]]]]]; rewrite <- E, endsWith_app;
      rewrite ?orb_true_r; reflexivity. }
  unfold upload_filter_step, fileFilter. rewrite A. split; reflexivity.
Qed.

Lemma name_suffix_any_case_accepted_witness :
  fileFilter (mkFile ("setup" +:+ ".JpEg") "application/x-msdownload" EmptyString)
  = (None, true)
  /\ upload_filter_step (mkFile ("setup" +:+ ".JpEg") "application/x-msdownload" EmptyString)
     = NextHandler.
Proof.
  apply (name_suffix_any_case_accepted "setup" ".JpEg" "application/x-msdownload" EmptyString).
  simpl. tauto.
Defined.

Lemma includes_first_char (c : ascii) (pat s : string) :
  JsString.includes (String c pat) s = true -> In c (JsString.chars s).
Proof.
  induction s as [|a s IH]; simpl; [discriminate|].
  destruct (ascii_dec c a) as [->|Hne]; [now left|].
  simpl. intros H. right. apply IH. exact H.
Qed.

Lemma no_lowercase_no_token (s : string) :
  forallb (fun c => negb (is_lowercase_letter c)) (JsString.chars s) = true ->
  mimetype_regex_test s = false.
Proof.
  intros H. rewrite forallb_forall in H. unfold mimetype_regex_test.
  repeat match goal with
         | |- context [JsString.includes (String ?c ?p) s] =>
             let E := fresh "E" in
             destruct (JsString.includes (String c p) s) eqn:E;
             [apply includes_first_char, H in E; discriminate E|]
         end.
  reflexivity.
Qed.

(** X13: the MIME pattern is case-sensitive: a MIME type written without
    lower-case letters, [IMAGE/PNG] for one, matches nothing, and unless the
    file name carries one of the suffixes the upload is turned down with the
    filter's error. *)
Theorem capital_mime_rejected (file : File) :
  forallb (fun c => negb (is_lowercase_letter c)) (JsString.chars (mimetype file)) = true ->
  extension_regex_test (originalname file) = false ->
  fileFilter file = (Some (new_Error "Only images are allowed (jpg/png/webp)."), false)
  /\ upload_filter_step file
     = NextError (new_Error "Only images are allowed (jpg/png/webp).").
Proof.
  intros Hm Hn. unfold upload_filter_step, fileFilter, fileFilter_allowed.
  rewrite (no_lowercase_no_token _ Hm), Hn. split; reflexivity.
Qed.

Lemma capital_mime_rejected_witness :
  fileFilter (mkFile "IMG_0042" "IMAGE/PNG" EmptyString)
  = (Some (new_Error "Only images are allowed (jpg/png/webp)."), false)
  /\ upload_filter_step (mkFile "IMG_0042" "IMAGE/PNG" EmptyString)
     = NextError (new_Error "Only images are allowed (jpg/png/webp).").
Proof.
  apply (capital_mime_rejected (mkFile "IMG_0042" "IMAGE/PNG" EmptyString)); reflexivity.
Defined.

(** ** Configuration *)

Lemma append_cons (c : ascii) (a b : string) : String c a +:+ b = String c (a +:+ b).
Proof. reflexivity. Qed.

Lemma digits_prefix_numeral (d : Decimal.uint) (rest : string) :
  digits_prefix rest = Decimal.Nil ->
  digits_prefix (NilEmpty.string_of_uint d +:+ rest) = d.
Proof.
  intros Hrest. induction d; simpl NilEmpty.string_of_uint;
    rewrite ?append_cons; simpl; rewrite ?IHd; auto.
Qed.

Lemma digit_plain (c : ascii) :
  is_digit c = true ->
  JsString.is_whitespace c = false
  /\ Ascii.eqb c "-"%char = false /\ Ascii.eqb c "+"%char = false.
Proof.
  destruct c as [[] [] [] [] [] [] [] []]; intros H; try discriminate H;
    repeat split; reflexivity.
Qed.

(** X15: the upload limit is read with [parseInt] in base 10. A setting
    that starts with the decimal numeral of [n], followed by nothing or by
    anything that is not a digit ([8], [8MB], [0.5], [1e3]), gives a limit of
    [n] times 1048576 bytes as long as that product is below 2^53: what
    follows the digits is dropped, so [0.5] means 0 bytes. *)
Theorem fileSize_limit_reads_leading_digits (n : Z) (rest : string) :
  0 <= n ->
  n * 1048576 < 2 ^ 53 ->
  digits_prefix rest = Decimal.Nil ->
  MAX_FILE_MB (Some (JsString.of_Z n +:+ rest)) = Int n
  /\ limits_fileSize (Some (JsString.of_Z n +:+ rest)) = Int (n * 1048576).
Proof.
  intros Hn Hbound Hrest.
  change (2 ^ 53) with 9007199254740992 in Hbound.
  assert (Hsafe : forall m, 0 <= m -> m < 9007199254740992 -> to_JsInt m = Int m).
  { intros m H0 H1. unfold to_JsInt. change (2 ^ 53) with 9007199254740992.
    destruct (Z.ltb_spec (Z.abs m) 9007199254740992) as [_|H]; [reflexivity | lia]. }
  assert (M : MAX_FILE_MB (Some (JsString.of_Z n +:+ rest)) = Int n).
  { assert (Hd : exists d, d <> Decimal.Nil /\ Z.to_int n = Decimal.Pos d).
    { destruct n as [|p|p]; [eexists; split; [|reflexivity]; discriminate | | lia].
      eexists; split; [|reflexivity]. apply DecimalPos.Unsigned.to_uint_nonnil. }
    destruct Hd as (d & Hnil & Hd).
    assert (Hs : JsString.of_Z n = NilEmpty.string_of_uint d).
    { unfold JsString.of_Z. rewrite Hd. simpl. now destruct d. }
    assert (Hv : Z.of_uint d = n).
    { rewrite <- (DecimalZ.of_to n), Hd. reflexivity. }
    destruct (numeral_digits d) as (c & r & Hc & Hdig & _).
    assert (Hc' : JsString.chars (JsString.of_Z n) = c :: r).
    { rewrite Hs. unfold JsString.chars in *. rewrite <- Hc. now destruct d. }
    destruct (digit_plain c Hdig) as (Hw & Hminus & Hplus).
    assert (Hne : JsString.is_empty (JsString.of_Z n +:+ rest) = false).
    { rewrite <- (of_chars_chars (JsString.of_Z n +:+ rest)), chars_app, Hc'.
      reflexivity. }
    unfold MAX_FILE_MB, env_or, parseInt10. rewrite Hne, chars_app, Hc'. simpl.
    rewrite Hw, Hminus, Hplus.
    change (String c (JsString.of_chars (r ++ JsString.chars rest)))
      with (JsString.of_chars ((c :: r) ++ JsString.chars rest)).
    rewrite <- Hc', <- chars_app, of_chars_chars, Hs, (digits_prefix_numeral d rest Hrest).
    assert (Hone : to_JsInt (1 * Z.of_uint d) = Int n).
    { rewrite Hv, Z.mul_1_l. apply Hsafe; lia. }
    destruct d; try congruence; exact Hone. }
  split; [exact M|]. unfold limits_fileSize. rewrite M.
  replace (n * 1024 * 1024) with (n * 1048576) by lia. apply Hsafe; lia.
Qed.

Lemma fileSize_limit_reads_leading_digits_witness :
  MAX_FILE_MB (Some (JsString.of_Z 0 +:+ ".5")) = Int 0
  /\ limits_fileSize (Some (JsString.of_Z 0 +:+ ".5")) = Int (0 * 1048576).
Proof.
  apply (fileSize_limit_reads_leading_digits 0 ".5").
  - lia.
  - reflexivity.
  - reflexivity.
Defined.

Example fileSize_limit_default :
  limits_fileSize None = Int 8388608
  /\ limits_fileSize (Some EmptyString) = Int 8388608
  /\ limits_fileSize (Some "16MB") = Int 16777216
  /\ limits_fileSize (Some "eight") = NaN
  /\ limits_fileSize (Some "9007199254740993") = Inexact.
Proof. repeat split. Qed.

(** ** Where a 500 comes from *)




